(** * Link extraction of the budget application (src/database.js)

    A shallow embedding of the link extractor: [fetchUrl], the three
    extraction strategies [extractOpenGraph], [extractJsonLd] (with
    [extractFromSchema]) and [extractBasicMeta], and the orchestrator
    [extractProductInfo].

    JavaScript strings are sequences of UTF-16 code units, numbers are
    IEEE 754 binary64 values (the Standard Library's [spec_float] at
    precision 53), values thrown are carried by an error monad, and the
    [console.log] lines of the orchestrator are kept as a log.  What the
    host supplies ([fetch], [URL], [cheerio.load], [JSON.parse] and the
    string conversion of non-string values) is a record of functions the
    development is parametrised by. *)

From Stdlib Require Import ZArith NArith List Bool String Ascii Lia.
From Stdlib Require Import Floats.SpecFloat.
From Stdlib Require Import DecimalString.
Import ListNotations.

(** ** Strings *)

Module JsString.

(** A string is the list of its UTF-16 code units. *)
Definition t := list N.

(** An ASCII literal as a string. *)
Fixpoint js (s : string) : t :=
  match s with
  | EmptyString => []
  | String c r => N_of_ascii c :: js r
  end.

Fixpoint eqb (a b : t) : bool :=
  match a, b with
  | [], [] => true
  | x :: a', y :: b' => N.eqb x y && eqb a' b'
  | _, _ => false
  end.

(** [\d] of a regular expression without the unicode flag: 0-9. *)
Definition is_digit (c : N) : bool := (48 <=? c)%N && (c <=? 57)%N.

(** [\s], which is also what [trim] and [parseFloat] strip: the
    WhiteSpace and LineTerminator code points of ECMAScript. *)
Definition is_space (c : N) : bool :=
  existsb (N.eqb c)
    [9; 10; 11; 12; 13; 32; 160; 5760; 8232; 8233; 8239; 8287; 12288; 65279]%N
  || ((8192 <=? c)%N && (c <=? 8202)%N).

Fixpoint dropWhile (p : N -> bool) (s : t) : t :=
  match s with
  | [] => []
  | c :: r => if p c then dropWhile p r else s
  end.

Fixpoint takeWhile (p : N -> bool) (s : t) : t :=
  match s with
  | [] => []
  | c :: r => if p c then c :: takeWhile p r else []
  end.

(** [String.prototype.trim]. *)
Definition trim (s : t) : t :=
  rev (dropWhile is_space (rev (dropWhile is_space s))).

(** [s.startsWith(p)], with what follows the prefix. *)
Fixpoint strip_prefix (p s : t) : option t :=
  match p, s with
  | [], _ => Some s
  | x :: p', y :: s' => if N.eqb x y then strip_prefix p' s' else None
  | _ :: _, [] => None
  end.

(** The decimal digits of a natural number, as [String(n)] gives them. *)
Definition of_N (n : N) : t :=
  js (NilEmpty.string_of_uint (N.to_uint n)).

(** A truthy string is a non-empty one. *)
Definition truthy (s : t) : bool :=
  match s with [] => false | _ :: _ => true end.

End JsString.

Abbreviation jsstring := JsString.t.
Abbreviation js := JsString.js.

(** ** Numbers *)

Module Number.

(** A number is a binary64 value. *)
Definition t := spec_float.

Definition prec : Z := 53%Z.
Definition emax : Z := 1024%Z.

Definition NaN : t := S754_nan.

(** The number an integer rounds to. *)
Definition of_Z (z : Z) : t := binary_normalize prec emax z 0%Z false.

(** The number nearest to [m * 10^k] (round to nearest, ties to even),
    [m] positive. *)
Definition of_decimal (neg : bool) (m : positive) (k : Z) : t :=
  match k with
  | Zneg p =>
      SFdiv prec emax (S754_finite neg m 0%Z) (S754_finite false (10 ^ p)%positive 0%Z)
  | _ => binary_normalize prec emax
           (cond_Zopp neg (Zpos m * 10 ^ k)%Z) 0%Z neg
  end.

Definition isNaN (x : t) : bool :=
  match x with S754_nan => true | _ => false end.

(** [ToBoolean]: NaN, +0 and -0 are falsy. *)
Definition truthy (x : t) : bool :=
  match x with
  | S754_nan | S754_zero _ => false
  | _ => true
  end.

Definition is_finite (x : t) : bool :=
  match x with
  | S754_zero _ | S754_finite _ _ _ => true
  | _ => false
  end.

(** [x < 0]. *)
Definition is_negative (x : t) : bool :=
  match x with
  | S754_finite true _ _ | S754_infinity true => true
  | _ => false
  end.

(** [x > 0]. *)
Definition is_positive (x : t) : bool :=
  match x with
  | S754_finite false _ _ | S754_infinity false => true
  | _ => false
  end.

(** The value of a run of decimal digits. *)
Definition digits_value (ds : jsstring) : Z :=
  fold_left (fun acc c => (acc * 10 + Z.of_N (c - 48))%Z) ds 0%Z.

(** The exponent part [e], [e+] or [e-] followed by digits, when the
    string starts with one; 0 otherwise. *)
Definition exponent (s : jsstring) : Z :=
  match s with
  | c :: r =>
      if N.eqb c 101 || N.eqb c 69 then
        let '(neg, r') :=
          match r with
          | 43%N :: r' => (false, r')
          | 45%N :: r' => (true, r')
          | _ => (false, r)
          end in
        match JsString.takeWhile JsString.is_digit r' with
        | [] => 0%Z
        | ds => cond_Zopp neg (digits_value ds)
        end
      else 0%Z
  | [] => 0%Z
  end.

(** [parseFloat] of a string: leading white space is skipped, the
    longest prefix that is a decimal literal is read, and NaN is the
    answer when there is none. *)
Definition parseFloat (s : jsstring) : t :=
  let s0 := JsString.dropWhile JsString.is_space s in
  let '(neg, u) :=
    match s0 with
    | 43%N :: r => (false, r)
    | 45%N :: r => (true, r)
    | _ => (false, s0)
    end in
  match JsString.strip_prefix (js "Infinity") u with
  | Some _ => S754_infinity neg
  | None =>
      let ip := JsString.takeWhile JsString.is_digit u in
      let r1 := JsString.dropWhile JsString.is_digit u in
      let '(fp, r2) :=
        match r1 with
        | 46%N :: r =>
            (JsString.takeWhile JsString.is_digit r,
             JsString.dropWhile JsString.is_digit r)
        | _ => ([], r1)
        end in
      match ip ++ fp with
      | [] => NaN
      | ds =>
          match digits_value ds with
          | Zpos m =>
              of_decimal neg m (exponent r2 - Z.of_nat (List.length fp))%Z
          | _ => S754_zero neg
          end
      end
  end.

End Number.

Abbreviation number := Number.t.

(** ** Values and exceptions *)

(** The values [JSON.parse] builds, and [undefined], which reading a
    missing property gives.  An object is the list of its own properties. *)
#[warnings="-register-all"]
Inductive value :=
| VUndefined
| VNull
| VBool (b : bool)
| VNum (n : number)
| VStr (s : jsstring)
| VArr (items : list value)
| VObj (props : list (jsstring * value)).

(** What is thrown: an error object with its [name] and [message]. *)
Record Exn := mkExn { exn_name : jsstring; exn_message : jsstring }.

(** [new Error(message)]. *)
Definition Error (message : jsstring) : Exn := mkExn (js "Error") message.

(** [TypeError], thrown when a property of [undefined] or [null] is read. *)
Definition TypeError : Exn :=
  mkExn (js "TypeError") (js "Cannot read properties of undefined or null").

(** A computation that returns or throws. *)
Inductive result (A : Type) :=
| Ok (a : A)
| Throw (e : Exn).
Arguments Ok {A} a.
Arguments Throw {A} e.

Definition bind {A B} (c : result A) (k : A -> result B) : result B :=
  match c with
  | Ok a => k a
  | Throw e => Throw e
  end.

(** [try { c } catch (error) { handler }]. *)
Definition try_catch {A} (c : result A) (handler : Exn -> result A) : result A :=
  match c with
  | Ok a => Ok a
  | Throw e => handler e
  end.

Declare Scope js_scope.
Delimit Scope js_scope with js.
Notation "x <- c ;; k" := (bind c (fun x => k))
  (at level 61, c at next level, right associativity) : js_scope.
Open Scope js_scope.

(** [ToBoolean]. *)
Definition truthy (v : value) : bool :=
  match v with
  | VUndefined | VNull => false
  | VBool b => b
  | VNum n => Number.truthy n
  | VStr s => JsString.truthy s
  | VArr _ | VObj _ => true
  end.

Fixpoint lookup {A} (k : jsstring) (l : list (jsstring * A)) : option A :=
  match l with
  | [] => None
  | (k', v) :: r => if JsString.eqb k k' then Some v else lookup k r
  end.

(** [v.k] for the property names the extractor reads ([@type], [name],
    [description], [image], [offers], [price]): none of them is inherited,
    so only an object's own property answers, and reading from
    [undefined] or [null] throws. *)
Definition get (v : value) (k : jsstring) : result value :=
  match v with
  | VUndefined | VNull => Throw TypeError
  | VObj props =>
      match lookup k props with
      | Some x => Ok x
      | None => Ok VUndefined
      end
  | _ => Ok VUndefined
  end.

Definition isArray (v : value) : bool :=
  match v with VArr _ => true | _ => false end.

(** [v[0]] of an array. *)
Definition first_entry (v : value) : value :=
  match v with
  | VArr (x :: _) => x
  | _ => VUndefined
  end.

(** [v === 'literal']. *)
Definition is_string (v : value) (s : jsstring) : bool :=
  match v with
  | VStr s' => JsString.eqb s' s
  | _ => false
  end.

(** ** The parsed page *)

(** An element of the parsed page: its tag, its attributes and what it
    contains (the text of a [title], the source of a [script]). *)
Record Element := mkElement {
  tag : jsstring;
  attrs : list (jsstring * jsstring);
  inner : jsstring
}.

(** The page cheerio parsed: its elements in document order. *)
Definition Document := list Element.

(** [$('tag')]. *)
Definition select_tag (t : jsstring) (doc : Document) : list Element :=
  filter (fun e => JsString.eqb (tag e) t) doc.

(** An upper-case letter A to Z as its lower-case letter. *)
Definition lower (c : N) : N :=
  if (65 <=? c)%N && (c <=? 90)%N then (c + 32)%N else c.

(** The value [v'] of the attribute [a] of an element against the value
    [v] of the selector: the selector engine compares the values of
    [type] without regard to case, and those of [property] and [name]
    exactly. *)
Definition value_matches (a v' v : jsstring) : bool :=
  if JsString.eqb a (js "type")
  then JsString.eqb (map lower v') (map lower v)
  else JsString.eqb v' v.

(** [$('tag[a="v"]')]. *)
Definition select (t a v : jsstring) (doc : Document) : list Element :=
  filter (fun e =>
            JsString.eqb (tag e) t &&
            match lookup a (attrs e) with
            | Some v' => value_matches a v' v
            | None => false
            end) doc.

(** [.attr(name)]: the attribute of the first element of the selection,
    [undefined] when there is none. *)
Definition attr (name : jsstring) (sel : list Element) : option jsstring :=
  match sel with
  | [] => None
  | e :: _ => lookup name (attrs e)
  end.

(** [.text()]: the text of every element of the selection, joined. *)
Definition text (sel : list Element) : jsstring :=
  List.concat (map inner sel).

(** [if (s)] for a string that may be [undefined]. *)
Definition present (s : option jsstring) : bool :=
  match s with
  | Some t => JsString.truthy t
  | None => false
  end.

(** ** The host *)

(** The response [fetch] resolves to. *)
Record Response := mkResponse {
  ok : bool;
  status : N;
  response_text : result jsstring
}.

(** What the platform and the libraries supply. *)
Record Host := mkHost {
  (** [new URL(url)] does not throw *)
  URL_valid : jsstring -> bool;
  (** [await fetch(url, { signal, headers })], the signal aborting after
      the given number of milliseconds: a response, or what it rejects with *)
  fetch : jsstring -> list (jsstring * jsstring) -> N -> result Response;
  (** [cheerio.load(html)] *)
  cheerio_load : jsstring -> Document;
  (** [JSON.parse(text)] *)
  JSON_parse : jsstring -> result value;
  (** [String(n)] of a number *)
  NumberToString : number -> jsstring;
  (** [String(v)] of an array or an object *)
  ObjectToString : value -> result jsstring
}.

(** ** The extracted record *)

(** The object the strategies build; [None] is a property that is not set. *)
Record ProductData := mkData {
  title : option value;
  price : option number;
  description : option value;
  image : option value
}.

(** [{}]. *)
Definition empty : ProductData := mkData None None None None.

(** A property is set. *)
Definition is_set {A} (o : option A) : bool :=
  match o with Some _ => true | None => false end.

(** [Object.keys(data).length]. *)
Definition keys_length (d : ProductData) : nat :=
  Nat.b2n (is_set (title d)) + Nat.b2n (is_set (price d)) +
  Nat.b2n (is_set (description d)) + Nat.b2n (is_set (image d)).

(** [Object.keys(data).length > 0 ? data : null]. *)
Definition data_or_null (d : ProductData) : option ProductData :=
  if Nat.ltb 0 (keys_length d) then Some d else None.

Definition set_title (v : value) (d : ProductData) : ProductData :=
  mkData (Some v) (price d) (description d) (image d).
Definition set_price (n : number) (d : ProductData) : ProductData :=
  mkData (title d) (Some n) (description d) (image d).
Definition set_description (v : value) (d : ProductData) : ProductData :=
  mkData (title d) (price d) (Some v) (image d).
Definition set_image (v : value) (d : ProductData) : ProductData :=
  mkData (title d) (price d) (description d) (Some v).
(** [delete data.price]. *)
Definition delete_price (d : ProductData) : ProductData :=
  mkData (title d) None (description d) (image d).

(** [!data.title]: a property that is not set reads as [undefined]. *)
Definition title_truthy (d : ProductData) : bool :=
  match title d with
  | Some v => truthy v
  | None => false
  end.

(** [!data.price]. *)
Definition price_truthy (d : ProductData) : bool :=
  match price d with
  | Some n => Number.truthy n
  | None => false
  end.

(** ** The extractor *)

(** What [extractProductInfo] writes to the console. *)
Inductive LogEntry :=
| LogExtracting (url : jsstring)
| LogOpenGraph (data : option ProductData)
| LogJsonLd (data : option ProductData)
| LogBasicMeta (data : option ProductData)
| LogComplete (data : ProductData)
| LogError (message : jsstring).

(** [/[\d,.\s]/]. *)
Definition price_char (c : N) : bool :=
  JsString.is_digit c || N.eqb c 44 || N.eqb c 46 || JsString.is_space c.

(** [price.match(/[\d,.\s]+/)]: the leftmost run of price characters, as
    long as it goes; [null] when the string has none. *)
Definition match_price (s : jsstring) : option jsstring :=
  match JsString.takeWhile price_char
          (JsString.dropWhile (fun c => negb (price_char c)) s) with
  | [] => None
  | m => Some m
  end.

(** [.replace(/[,\s]/g, '.')]. *)
Definition commas_and_spaces_to_dots (s : jsstring) : jsstring :=
  map (fun c => if N.eqb c 44 || JsString.is_space c then 46%N else c) s.

(** [extractOpenGraph($)]. *)
Definition extractOpenGraph (doc : Document) : option ProductData :=
  let data := empty in
  let title := attr (js "content") (select (js "meta") (js "property") (js "og:title") doc) in
  let price := attr (js "content") (select (js "meta") (js "property") (js "og:price") doc) in
  let description :=
    attr (js "content") (select (js "meta") (js "property") (js "og:description") doc) in
  let image := attr (js "content") (select (js "meta") (js "property") (js "og:image") doc) in
  let data :=
    match title with
    | Some t => if JsString.truthy t then set_title (VStr (JsString.trim t)) data else data
    | None => data
    end in
  let data :=
    match price with
    | Some p =>
        if JsString.truthy p then
          match match_price p with
          | Some priceMatch =>
              set_price (Number.parseFloat (commas_and_spaces_to_dots priceMatch)) data
          | None => data
          end
        else data
    | None => data
    end in
  let data :=
    match description with
    | Some t =>
        if JsString.truthy t then set_description (VStr (JsString.trim t)) data else data
    | None => data
    end in
  let data :=
    match image with
    | Some t => if JsString.truthy t then set_image (VStr (JsString.trim t)) data else data
    | None => data
    end in
  data_or_null data.

(** [extractBasicMeta($)]. *)
Definition extractBasicMeta (doc : Document) : option ProductData :=
  let data := empty in
  let title :=
    let m := attr (js "content") (select (js "meta") (js "name") (js "title") doc) in
    if present m then m else Some (text (select_tag (js "title") doc)) in
  let description :=
    attr (js "content") (select (js "meta") (js "name") (js "description") doc) in
  let data :=
    match title with
    | Some t => if JsString.truthy t then set_title (VStr (JsString.trim t)) data else data
    | None => data
    end in
  let data :=
    match description with
    | Some t =>
        if JsString.truthy t then set_description (VStr (JsString.trim t)) data else data
    | None => data
    end in
  data_or_null data.

(** [.replace(/[^\d.,]/g, '')]. *)
Definition keep_digits_dots_commas (s : jsstring) : jsstring :=
  filter (fun c => JsString.is_digit c || N.eqb c 46 || N.eqb c 44) s.

(** [.replace(',', '.')]: the first comma only. *)
Fixpoint first_comma_to_dot (s : jsstring) : jsstring :=
  match s with
  | [] => []
  | c :: r => if N.eqb c 44 then 46%N :: r else c :: first_comma_to_dot r
  end.

(** [$('[data-price]').first().attr('data-price')]. *)
Definition first_data_price (doc : Document) : option jsstring :=
  match filter (fun e => is_set (lookup (js "data-price") (attrs e))) doc with
  | [] => None
  | e :: _ => lookup (js "data-price") (attrs e)
  end.

(** [extractPriceFromMeta($)], which [extractPrice] calls and the
    orchestrator does not use. *)
Definition extractPriceFromMeta (doc : Document) : option number :=
  let read (s : jsstring) : number :=
    Number.parseFloat (first_comma_to_dot (keep_digits_dots_commas s)) in
  let ogPrice :=
    attr (js "content") (select (js "meta") (js "property") (js "og:price") doc) in
  let found :=
    match ogPrice with
    | Some s =>
        if JsString.truthy s && Number.is_positive (read s) then Some (read s) else None
    | None => None
    end in
  match found with
  | Some price => Some price
  | None =>
      match first_data_price doc with
      | Some s =>
          if JsString.truthy s && Number.is_positive (read s) then Some (read s) else None
      | None => None
      end
  end.

Section WithHost.

Variable host : Host.

(** [String(v)], as [parseFloat] applies it to its argument. *)
Definition ToString (v : value) : result jsstring :=
  match v with
  | VStr s => Ok s
  | VUndefined => Ok (js "undefined")
  | VNull => Ok (js "null")
  | VBool true => Ok (js "true")
  | VBool false => Ok (js "false")
  | VNum n => Ok (NumberToString host n)
  | VArr _ | VObj _ => ObjectToString host v
  end.

(** [parseFloat(v)] of any value. *)
Definition parseFloat (v : value) : result number :=
  s <- ToString v ;; Ok (Number.parseFloat s).

(** [fetchUrl(url, timeout)]. *)
Definition fetchUrl (url : jsstring) (timeout : N) : result jsstring :=
  try_catch
    (if URL_valid host url then
       response <-
         fetch host url
           [(js "User-Agent",
             js "Mozilla/5.0 (Windows NT 10.0; Win64; x64) AppleWebKit/537.36")]
           timeout ;;
       if negb (ok response) then
         Throw (Error (js "Website returned error: " ++ JsString.of_N (status response)))
       else
         html <- response_text response ;;
         Ok html
     else Throw (Error (js "Invalid URL format. Please enter a valid URL.")))
    (fun error =>
       if JsString.eqb (exn_name error) (js "AbortError") then
         Throw (Error (js "Request timed out. Website took too long to respond."))
       else Throw error).

(** [extractFromSchema(obj)]. *)
Definition extractFromSchema (obj : value) : result (option ProductData) :=
  let data := empty in
  name <- get obj (js "name") ;;
  let data := if truthy name then set_title name data else data in
  description <- get obj (js "description") ;;
  let data := if truthy description then set_description description data else data in
  image <- get obj (js "image") ;;
  let data :=
    if truthy image then
      set_image (if isArray image then first_entry image else image) data
    else data in
  offers <- get obj (js "offers") ;;
  data <-
    (if truthy offers then
       let offer := if isArray offers then first_entry offers else offers in
       price <- get offer (js "price") ;;
       if truthy price then
         n <- parseFloat price ;;
         Ok (set_price n data)
       else Ok data
     else Ok data) ;;
  Ok (data_or_null data).

(** The loop of [extractJsonLd] over the scripts that are left. *)
Fixpoint jsonLdLoop (scripts : list Element) : result (option ProductData) :=
  match scripts with
  | [] => Ok None
  | script :: rest =>
      json <- JSON_parse host (inner script) ;;
      type <- get json (js "@type") ;;
      if is_string type (js "Product") || is_string type (js "Offer") then
        extractFromSchema json
      else
        offers <- get json (js "offers") ;;
        nested <- (if truthy offers then get offers (js "price") else Ok offers) ;;
        if truthy nested then
          name <- get json (js "name") ;;
          price <- get offers (js "price") ;;
          n <- parseFloat price ;;
          description <- get json (js "description") ;;
          Ok (Some (mkData (Some name) (Some n) (Some description) None))
        else jsonLdLoop rest
  end.

(** [extractJsonLd($)]. *)
Definition extractJsonLd (doc : Document) : option ProductData :=
  match jsonLdLoop (select (js "script") (js "type") (js "application/ld+json") doc) with
  | Ok data => data
  | Throw _ => None
  end.

(** Steps 3 and 4 of [extractProductInfo]: the strategies in order, each
    one tried when [data] is still [null], with what is logged. *)
Definition chooseData (doc : Document) : list LogEntry * ProductData :=
  let data := extractOpenGraph doc in
  let log := [LogOpenGraph data] in
  let '(log, data) :=
    match data with
    | None => let d := extractJsonLd doc in (log ++ [LogJsonLd d], d)
    | Some _ => (log, data)
    end in
  let '(log, data) :=
    match data with
    | None => let d := extractBasicMeta doc in (log ++ [LogBasicMeta d], d)
    | Some _ => (log, data)
    end in
  match data with
  | None => (log, empty)
  | Some d => (log, d)
  end.

(** Steps 5 and 6 of [extractProductInfo]. *)
Definition validate (data : ProductData) : result ProductData :=
  if negb (title_truthy data) && negb (price_truthy data) then
    Throw (Error (js "Could not find product information on this page."))
  else
    let data :=
      if price_truthy data &&
         match price data with Some n => Number.isNaN n | None => true end
      then delete_price data else data in
    Ok data.

(** [extractProductInfo(url)]: what it logs, and what it returns or
    throws. *)
Definition extractProductInfo (url : jsstring) : list LogEntry * result ProductData :=
  let log := [LogExtracting url] in
  match fetchUrl url 5000 with
  | Throw error => (log ++ [LogError (exn_message error)], Throw error)
  | Ok html =>
      let doc := cheerio_load host html in
      let '(entries, data) := chooseData doc in
      let log := log ++ entries in
      match validate data with
      | Throw error => (log ++ [LogError (exn_message error)], Throw error)
      | Ok data => (log ++ [LogComplete data], Ok data)
      end
  end.

End WithHost.

(** ** Pages and hosts to run the extractor on *)

Module Fixture.

(** [<meta property="p" content="c">]. *)
Definition meta_property (p c : jsstring) : Element :=
  mkElement (js "meta") [(js "property", p); (js "content", c)] [].

(** [<meta name="n" content="c">]. *)
Definition meta_name (n c : jsstring) : Element :=
  mkElement (js "meta") [(js "name", n); (js "content", c)] [].

(** [<title>t</title>]. *)
Definition title_element (t : jsstring) : Element :=
  mkElement (js "title") [] t.

(** [<script type="application/ld+json">src</script>]. *)
Definition ld_json (src : jsstring) : Element :=
  mkElement (js "script") [(js "type", js "application/ld+json")] src.

(** A JSON text, written with ['] for the double quote. *)
Definition json_text (s : string) : jsstring :=
  map (fun c => if N.eqb c 39 then 34%N else c) (js s).

Definition SyntaxError : Exn :=
  mkExn (js "SyntaxError") (js "Unexpected token in JSON").

(** A [JSON.parse] that knows the texts of a table and rejects every
    other text. *)
Definition parse_table (table : list (jsstring * value)) (src : jsstring)
  : result value :=
  match lookup src table with
  | Some v => Ok v
  | None => Throw SyntaxError
  end.

(** A host whose every valid request is answered by [response], whose
    parser gives [doc] and whose [JSON.parse] is [parse_table table].
    The pages below hold no number and no object where a string is
    read, so the last two functions are not reached. *)
Definition host (response : result Response) (doc : Document)
    (table : list (jsstring * value)) : Host :=
  mkHost (fun url => JsString.truthy url)
         (fun _ _ _ => response)
         (fun _ => doc)
         (parse_table table)
         (fun _ => js "NaN")
         (fun _ => Ok (js "[object Object]")).

(** A host that fetched a page and parsed it to [doc]. *)
Definition page (doc : Document) (table : list (jsstring * value)) : Host :=
  host (Ok (mkResponse true 200 (Ok (js "<html>")))) doc table.

Definition url : jsstring := js "https://shop.example/p/1".

(** The text and the value of
    [{"@type":"Product","name":"BILLY","offers":{"price":"399"}}]. *)
Definition billy_src : jsstring :=
  json_text "{'@type':'Product','name':'BILLY','offers':{'price':'399'}}".
Definition billy : value :=
  VObj [(js "@type", VStr (js "Product"));
        (js "name", VStr (js "BILLY"));
        (js "offers", VObj [(js "price", VStr (js "399"))])].

(** [{"@type":"Product","name":"BILLY","offers":{"price":"-5"}}]. *)
Definition refund_src : jsstring :=
  json_text "{'@type':'Product','name':'BILLY','offers':{'price':'-5'}}".
Definition refund : value :=
  VObj [(js "@type", VStr (js "Product"));
        (js "name", VStr (js "BILLY"));
        (js "offers", VObj [(js "price", VStr (js "-5"))])].

(** [{"@type":"Thing","name":"BILLY","image":"billy.png",
      "offers":{"price":"399"}}]. *)
Definition thing_src : jsstring :=
  json_text
    "{'@type':'Thing','name':'BILLY','image':'billy.png','offers':{'price':'399'}}".
Definition thing : value :=
  VObj [(js "@type", VStr (js "Thing"));
        (js "name", VStr (js "BILLY"));
        (js "image", VStr (js "billy.png"));
        (js "offers", VObj [(js "price", VStr (js "399"))])].

(** [{"@type":"Product","name":"BILLY","image":["a.png","b.png"],
      "offers":[{"price":"399"}]}]. *)
Definition listed_src : jsstring :=
  json_text
    "{'@type':'Product','name':'BILLY','image':['a.png','b.png'],'offers':[{'price':'399'}]}".
Definition listed : value :=
  VObj [(js "@type", VStr (js "Product"));
        (js "name", VStr (js "BILLY"));
        (js "image", VArr [VStr (js "a.png"); VStr (js "b.png")]);
        (js "offers", VArr [VObj [(js "price", VStr (js "399"))]])].

(** [{"@type":"Product","name":"BILLY"}]. *)
Definition unpriced_src : jsstring :=
  json_text "{'@type':'Product','name':'BILLY'}".
Definition unpriced : value :=
  VObj [(js "@type", VStr (js "Product")); (js "name", VStr (js "BILLY"))].

(** [{"@type":"BreadcrumbList"}]. *)
Definition breadcrumb_src : jsstring := json_text "{'@type':'BreadcrumbList'}".
Definition breadcrumb : value := VObj [(js "@type", VStr (js "BreadcrumbList"))].

(** The JSON texts the pages below hold, parsed. *)
Definition table : list (jsstring * value) :=
  [(billy_src, billy); (refund_src, refund); (thing_src, thing);
   (listed_src, listed); (unpriced_src, unpriced);
   (breadcrumb_src, breadcrumb)].

(** The shop that serves [doc]. *)
Definition shop (doc : Document) : Host := page doc table.

(** The text of [<title>] of the example, with its en dash. *)
Definition shop_title : jsstring :=
  js "Example Product " ++ [8211%N] ++ js " Shop".

(** Open Graph: a title and the price "1 299,00". *)
Definition og_spaced_price : Document :=
  [meta_property (js "og:title") (js "BILLY");
   meta_property (js "og:price") (js "1 299,00")].

(** Open Graph: a title and the price ",". *)
Definition og_comma_price : Document :=
  [meta_property (js "og:title") (js "BILLY");
   meta_property (js "og:price") (js ",")].

(** JSON-LD only: a product with the price "-5". *)
Definition ld_refund : Document := [ld_json refund_src].

(** JSON-LD only: the BILLY block. *)
Definition ld_billy : Document := [ld_json billy_src].

(** JSON-LD only: a malformed block, then the BILLY block. *)
Definition ld_malformed_then_billy : Document :=
  [ld_json (js "{bad"); ld_json billy_src].

(** A block that is not relevant, a malformed block, the BILLY block, and
    a [<title>]. *)
Definition ld_malformed_with_title : Document :=
  [ld_json breadcrumb_src; ld_json (js "{bad"); ld_json billy_src;
   title_element (js "Shop")].

(** Open Graph: an image and the price "0". *)
Definition og_image_zero_price : Document :=
  [meta_property (js "og:image") (js "i.png");
   meta_property (js "og:price") (js "0")].

(** Open Graph: a description and the price "0.00". *)
Definition og_free : Document :=
  [meta_property (js "og:description") (js "A free sample");
   meta_property (js "og:price") (js "0.00")].

(** Open Graph: an image only; JSON-LD: the BILLY block. *)
Definition og_image_and_billy : Document :=
  [meta_property (js "og:image") (js " https://shop.example/billy.png ");
   ld_json billy_src].

(** Open Graph: a title only; JSON-LD: the BILLY block; a [<title>]. *)
Definition og_title_and_billy : Document :=
  [meta_property (js "og:title") (js "BILLY bookcase");
   ld_json billy_src; title_element (js "Shop")].




(** A [<title>] and a description with spaces around it. *)
Definition titled : Document :=
  [title_element shop_title;
   meta_name (js "description") (js " A sturdy bookcase. ")].

(** A description with spaces around it, and nothing else. *)
Definition described : Document :=
  [meta_name (js "description") (js " hi ")].

(** A page with a paragraph and nothing the strategies look for. *)
Definition plain : Document := [mkElement (js "p") [] (js "Hello")].

(** A host whose server answers 404. *)
Definition not_found : Host :=
  host (Ok (mkResponse false 404 (Ok (js "Not Found")))) plain [].

(** A host whose request is aborted by the timeout. *)
Definition too_slow : Host :=
  host (Throw (mkExn (js "AbortError") (js "This operation was aborted")))
       plain [].

End Fixture.

(** ** Notions the properties are stated with *)

(** The failures of the error taxonomy, as the extractor throws them. *)
Definition ExtractionFailed : Exn :=
  Error (js "Could not find product information on this page.").
Definition Timeout : Exn :=
  Error (js "Request timed out. Website took too long to respond.").
Definition UpstreamError (status : N) : Exn :=
  Error (js "Website returned error: " ++ JsString.of_N status).

(** The request headers of [fetchUrl]. *)
Definition request_headers : list (jsstring * jsstring) :=
  [(js "User-Agent",
    js "Mozilla/5.0 (Windows NT 10.0; Win64; x64) AppleWebKit/537.36")].

(** The record of the first strategy of a list that gives one. *)
Fixpoint first_result (strategies : list (Document -> option ProductData))
    (doc : Document) : option ProductData :=
  match strategies with
  | [] => None
  | strategy :: others =>
      match strategy doc with
      | Some d => Some d
      | None => first_result others doc
      end
  end.

(** The strategies in their order. *)
Definition strategies (h : Host) : list (Document -> option ProductData) :=
  [extractOpenGraph; extractJsonLd h; extractBasicMeta].

(** The content of [<meta property="p">] and of [<meta name="n">], as the
    strategies read it. *)
Definition og_content (p : jsstring) (doc : Document) : option jsstring :=
  attr (js "content") (select (js "meta") (js "property") p doc).
Definition meta_content (n : jsstring) (doc : Document) : option jsstring :=
  attr (js "content") (select (js "meta") (js "name") n doc).

(** The JSON-LD scripts of a page. *)
Definition ld_scripts (doc : Document) : list Element :=
  select (js "script") (js "type") (js "application/ld+json") doc.

(** A selection without elements. *)
Definition none (sel : list Element) : bool :=
  match sel with [] => true | _ :: _ => false end.

(** A page with none of the signals the strategies look for. *)
Definition no_signals (doc : Document) : bool :=
  none (select (js "meta") (js "property") (js "og:title") doc) &&
  none (select (js "meta") (js "property") (js "og:price") doc) &&
  none (select (js "meta") (js "property") (js "og:description") doc) &&
  none (select (js "meta") (js "property") (js "og:image") doc) &&
  none (ld_scripts doc) &&
  none (select (js "meta") (js "name") (js "title") doc) &&
  none (select (js "meta") (js "name") (js "description") doc) &&
  none (select_tag (js "title") doc).

(** A property of a parsed block, [undefined] when it has none. *)
Definition field (json : value) (k : jsstring) : value :=
  match json with
  | VObj props =>
      match lookup k props with
      | Some x => x
      | None => VUndefined
      end
  | _ => VUndefined
  end.

(** A block declared as a [Product] or an [Offer]. *)
Definition typed_block (json : value) : bool :=
  is_string (field json (js "@type")) (js "Product") ||
  is_string (field json (js "@type")) (js "Offer").

(** A block the scan of [extractJsonLd] stops at: a typed one, or one
    whose [offers] has a truthy [price]. *)
Definition relevant (json : value) : bool :=
  typed_block json ||
  (truthy (field json (js "offers")) &&
   truthy (field (field json (js "offers")) (js "price"))).

(** [undefined] and [null], whose properties cannot be read. *)
Definition nullish (v : value) : bool :=
  match v with
  | VUndefined | VNull => true
  | _ => false
  end.

(** A string that was found and is not empty, trimmed. *)
Definition trimmed (s : option jsstring) : option value :=
  match s with
  | Some c => if JsString.truthy c then Some (VStr (JsString.trim c)) else None
  | None => None
  end.

(** The first of two optional values that is there. *)
Definition or_else (a b : option value) : option value :=
  match a with
  | Some _ => a
  | None => b
  end.




(** ** The purchases store (database.js) and the routes (server.js) *)

(** The message of the TypeError the engine throws at an expression; the
    wording is the engine's. *)
Definition Messages := jsstring -> jsstring.

Definition typeError (m : Messages) (expression : jsstring) : Exn :=
  mkExn (js "TypeError") (m expression).

(** [v.k], and [const { k } = v], of a request body or a row: reading from
    [undefined] or [null] throws.  The body is what [express.json()]
    leaves, an object or an array, so no property is inherited. *)
Definition member (m : Messages) (expression : jsstring) (v : value)
    (k : jsstring) : result value :=
  if nullish v then Throw (typeError m expression) else Ok (field v k).

(** [v.trim()]: a string has the method, no other value has one to call. *)
Definition trim_call (m : Messages) (expression : jsstring) (v : value)
  : result jsstring :=
  match v with
  | VStr s => Ok (JsString.trim s)
  | _ => Throw (typeError m expression)
  end.

(** [v || '']. *)
Definition or_empty (v : value) : value :=
  if truthy v then v else VStr [].

(** [v ? 1 : 0]. *)
Definition one_or_zero (v : value) : number :=
  if truthy v then Number.of_Z 1 else Number.of_Z 0.

(** [message || fallback]. *)
Definition or_default (message fallback : jsstring) : jsstring :=
  if JsString.truthy message then message else fallback.

(** [s.startsWith(p)]. *)
Definition startsWith (s p : jsstring) : bool :=
  is_set (JsString.strip_prefix p s).

Module Store.

(** The statements the store prepares. *)
Inductive Sql :=
| InsertPurchase
| UpdatePurchase
| DeletePurchase.

(** What [stmt.run(...)] returns. *)
Record RunInfo := mkRunInfo {
  changes : N;
  lastInsertRowid : value
}.

(** The database: [db.prepare(sql).run(...params)] on a state of the
    file, giving what it returns or throws and the state it leaves. *)
Record Sqlite (Db : Type) := mkSqlite {
  run : Sql -> list value -> Db -> result RunInfo * Db
}.
Arguments run {Db} _ _ _ _.

(** The object [addPurchase] and [updatePurchase] return. *)
Record Purchase := mkPurchase {
  id : value;
  name : jsstring;
  link : value;
  cost : number;
  bought : number;
  comments : value;
  room : value
}.

(** The object [deletePurchase] returns. *)
Record Deleted := mkDeleted {
  success : bool;
  message : jsstring
}.

Section WithDatabase.

Variable h : Host.
Variable m : Messages.
Variable Db : Type.
Variable sqlite : Sqlite Db.

(** The validation [addPurchase] and [updatePurchase] start with: the
    trimmed name and the numeric cost, or the error thrown. *)
Definition addPurchase_checks (name cost : value) : result (jsstring * number) :=
  blank <- (if negb (truthy name) then Ok true
            else trimmed <- trim_call m (js "name.trim") name ;;
                 Ok (JsString.eqb trimmed [])) ;;
  if (blank : bool) then Throw (Error (js "Product name is required"))
  else if nullish cost then Throw (Error (js "Cost is required"))
  else
    numericCost <- parseFloat h cost ;;
    if Number.isNaN numericCost || Number.is_negative numericCost then
      Throw (Error (js "Cost must be a valid positive number"))
    else
      trimmed <- trim_call m (js "name.trim") name ;;
      Ok (trimmed, numericCost).

(** [addPurchase(name, link, cost, bought, comments, room)]. *)
Definition addPurchase (name link cost bought comments room : value) (db : Db)
  : result Purchase * Db :=
  match addPurchase_checks name cost with
  | Throw e => (Throw e, db)
  | Ok (trimmed, numericCost) =>
      match run sqlite InsertPurchase
              [VStr trimmed; or_empty link; VNum numericCost;
               VNum (one_or_zero bought); or_empty comments; or_empty room] db with
      | (Throw e, db') => (Throw e, db')
      | (Ok result, db') =>
          (Ok (mkPurchase (lastInsertRowid result) trimmed (or_empty link)
                          numericCost (one_or_zero bought)
                          (or_empty comments) (or_empty room)), db')
      end
  end.

(** The validation of [updatePurchase], written out in it as in
    [addPurchase]. *)
Definition updatePurchase_checks (name cost : value) : result (jsstring * number) :=
  blank <- (if negb (truthy name) then Ok true
            else trimmed <- trim_call m (js "name.trim") name ;;
                 Ok (JsString.eqb trimmed [])) ;;
  if (blank : bool) then Throw (Error (js "Product name is required"))
  else if nullish cost then Throw (Error (js "Cost is required"))
  else
    numericCost <- parseFloat h cost ;;
    if Number.isNaN numericCost || Number.is_negative numericCost then
      Throw (Error (js "Cost must be a valid positive number"))
    else
      trimmed <- trim_call m (js "name.trim") name ;;
      Ok (trimmed, numericCost).

(** The error of a statement that changed no row:
    [new Error(`Purchase with ID ${id} not found`)]. *)
Definition notFound (id : value) : result Exn :=
  shown <- ToString h id ;;
  Ok (Error (js "Purchase with ID " ++ shown ++ js " not found")).

(** [updatePurchase(id, name, link, cost, bought, comments, room)]. *)
Definition updatePurchase (id name link cost bought comments room : value)
    (db : Db) : result Purchase * Db :=
  match updatePurchase_checks name cost with
  | Throw e => (Throw e, db)
  | Ok (trimmed, numericCost) =>
      match run sqlite UpdatePurchase
              [VStr trimmed; or_empty link; VNum numericCost;
               VNum (one_or_zero bought); or_empty comments; or_empty room;
               id] db with
      | (Throw e, db') => (Throw e, db')
      | (Ok result, db') =>
          if N.eqb (changes result) 0 then
            match notFound id with
            | Ok e => (Throw e, db')
            | Throw e => (Throw e, db')
            end
          else
            (Ok (mkPurchase id trimmed (or_empty link) numericCost
                            (one_or_zero bought)
                            (or_empty comments) (or_empty room)), db')
      end
  end.

(** [deletePurchase(id)]. *)
Definition deletePurchase (id : value) (db : Db) : result Deleted * Db :=
  match run sqlite DeletePurchase [id] db with
  | (Throw e, db') => (Throw e, db')
  | (Ok result, db') =>
      if N.eqb (changes result) 0 then
        match notFound id with
        | Ok e => (Throw e, db')
        | Throw e => (Throw e, db')
        end
      else (Ok (mkDeleted true (js "Purchase deleted successfully")), db')
  end.

End WithDatabase.

End Store.

Module Server.

(** The JSON bodies the routes send. *)
Inductive Body :=
| ErrorBody (error : jsstring)
| FailureBody (error : jsstring)
| ExtractedBody (data : ProductData)
| PurchaseBody (purchase : Store.Purchase)
| DeletedBody (result : Store.Deleted).

(** [res.status(code).json(body)]; [res.json(body)] sends 200. *)
Record HttpResponse := mkHttp {
  code : N;
  body : Body
}.

(** What a route writes to the console. *)
Inductive ServerLog :=
| Requested (url : jsstring)
| FromExtractor (entry : LogEntry)
| Failed (error : Exn).

(** The URL the extraction route fetches: the trimmed one, with
    [https://] in front when it starts with neither scheme. *)
Definition urlToFetch (trimmed : jsstring) : jsstring :=
  if negb (startsWith trimmed (js "http://")) &&
     negb (startsWith trimmed (js "https://"))
  then js "https://" ++ trimmed
  else trimmed.

Section Routes.

Variable h : Host.
Variable m : Messages.
Variable Db : Type.
Variable sqlite : Store.Sqlite Db.
(** [parseInt(text)] *)
Variable parseInt : jsstring -> number.

(** [!v || !v.trim()]. *)
Definition blank (expression : jsstring) (v : value) : result bool :=
  if negb (truthy v) then Ok true
  else trimmed <- trim_call m expression v ;;
       Ok (negb (JsString.truthy trimmed)).

(** [POST /api/extract-link] with the parsed request body. *)
Definition extractLink (reqBody : value) : list ServerLog * HttpResponse :=
  let attempt : list ServerLog * result HttpResponse :=
    match (url <- member m (js "req.body") reqBody (js "url") ;;
           missing <- blank (js "url.trim") url ;;
           if (missing : bool) then Ok None
           else trimmed <- trim_call m (js "url.trim") url ;;
                Ok (Some (urlToFetch trimmed))) with
    | Throw e => ([], Throw e)
    | Ok None => ([], Ok (mkHttp 400 (ErrorBody (js "URL is required"))))
    | Ok (Some target) =>
        let '(entries, outcome) := extractProductInfo h target in
        let log := Requested target :: map FromExtractor entries in
        match outcome with
        | Ok extractedData => (log, Ok (mkHttp 200 (ExtractedBody extractedData)))
        | Throw e => (log, Throw e)
        end
    end in
  match attempt with
  | (log, Ok response) => (log, response)
  | (log, Throw error) =>
      (log ++ [Failed error],
       mkHttp 400
         (FailureBody
            (or_default (exn_message error)
               (js "Could not extract product information. Please fill in manually."))))
  end.

(** The checks the purchase routes make before they call the store:
    [None] when they pass, the 400 response otherwise. *)
Definition routeChecks (name cost : value) : result (option HttpResponse) :=
  missing <- blank (js "name.trim") name ;;
  if (missing : bool) then
    Ok (Some (mkHttp 400 (ErrorBody (js "Product name is required"))))
  else if nullish cost || is_string cost [] then
    Ok (Some (mkHttp 400 (ErrorBody (js "Cost is required"))))
  else Ok None.

(** [POST /api/purchases] with the parsed request body. *)
Definition postPurchase (reqBody : value) (db : Db)
  : list ServerLog * HttpResponse * Db :=
  let attempt : result HttpResponse * Db :=
    match (name <- member m (js "req.body") reqBody (js "name") ;;
           cost <- member m (js "req.body") reqBody (js "cost") ;;
           routeChecks name cost) with
    | Throw e => (Throw e, db)
    | Ok (Some response) => (Ok response, db)
    | Ok None =>
        match Store.addPurchase h m Db sqlite
                (field reqBody (js "name")) (field reqBody (js "link"))
                (field reqBody (js "cost")) (field reqBody (js "bought"))
                (field reqBody (js "comments")) (field reqBody (js "room")) db with
        | (Ok newPurchase, db') => (Ok (mkHttp 201 (PurchaseBody newPurchase)), db')
        | (Throw e, db') => (Throw e, db')
        end
    end in
  match attempt with
  | (Ok response, db') => ([], response, db')
  | (Throw error, db') =>
      ([Failed error],
       mkHttp 500 (ErrorBody (or_default (exn_message error)
                                (js "Failed to add purchase"))), db')
  end.

(** [PUT /api/purchases/:id] with the [:id] of the path and the parsed
    request body. *)
Definition putPurchase (idParam : jsstring) (reqBody : value) (db : Db)
  : list ServerLog * HttpResponse * Db :=
  let id := VNum (parseInt idParam) in
  let attempt : result HttpResponse * Db :=
    match (name <- member m (js "req.body") reqBody (js "name") ;;
           cost <- member m (js "req.body") reqBody (js "cost") ;;
           routeChecks name cost) with
    | Throw e => (Throw e, db)
    | Ok (Some response) => (Ok response, db)
    | Ok None =>
        match Store.updatePurchase h m Db sqlite id
                (field reqBody (js "name")) (field reqBody (js "link"))
                (field reqBody (js "cost")) (field reqBody (js "bought"))
                (field reqBody (js "comments")) (field reqBody (js "room")) db with
        | (Ok updatedPurchase, db') =>
            (Ok (mkHttp 200 (PurchaseBody updatedPurchase)), db')
        | (Throw e, db') => (Throw e, db')
        end
    end in
  match attempt with
  | (Ok response, db') => ([], response, db')
  | (Throw error, db') =>
      ([Failed error],
       mkHttp 500 (ErrorBody (or_default (exn_message error)
                                (js "Failed to update purchase"))), db')
  end.

(** [DELETE /api/purchases/:id] with the [:id] of the path. *)
Definition deletePurchase (idParam : jsstring) (db : Db)
  : list ServerLog * HttpResponse * Db :=
  let id := VNum (parseInt idParam) in
  match Store.deletePurchase h Db sqlite id db with
  | (Ok result, db') => ([], mkHttp 200 (DeletedBody result), db')
  | (Throw error, db') =>
      ([Failed error],
       mkHttp 500 (ErrorBody (or_default (exn_message error)
                                (js "Failed to delete purchase"))), db')
  end.

End Routes.

End Server.

(** ** Notions the further properties are stated with *)

(** What [parseFloat] does with the text after the sign. *)
Definition parse_unsigned (neg : bool) (u : jsstring) : number :=
  match JsString.strip_prefix (js "Infinity") u with
  | Some _ => S754_infinity neg
  | None =>
      let ip := JsString.takeWhile JsString.is_digit u in
      let r1 := JsString.dropWhile JsString.is_digit u in
      let '(fp, r2) :=
        match r1 with
        | 46%N :: r =>
            (JsString.takeWhile JsString.is_digit r,
             JsString.dropWhile JsString.is_digit r)
        | _ => ([], r1)
        end in
      match ip ++ fp with
      | [] => Number.NaN
      | ds =>
          match Number.digits_value ds with
          | Zpos m =>
              Number.of_decimal neg m
                (Number.exponent r2 - Z.of_nat (List.length fp))%Z
          | _ => S754_zero neg
          end
      end
  end.

(** The sign bit of a number; NaN has none. *)
Definition minus_sign (x : number) : bool :=
  match x with
  | S754_zero s | S754_infinity s | S754_finite s _ _ => s
  | S754_nan => false
  end.

(** The price of an [og:price] content. *)
Definition og_price (content : option jsstring) : option number :=
  match content with
  | Some p =>
      match match_price p with
      | Some run => Some (Number.parseFloat (commas_and_spaces_to_dots run))
      | None => None
      end
  | None => None
  end.

(** A string with a character of a price in it. *)
Definition has_price_char (s : jsstring) : bool := existsb price_char s.

(** A string of decimal digits only. *)
Definition all_digits (s : jsstring) : bool := forallb JsString.is_digit s.

(** The last part of a string without its white space at the end. *)
Definition trimEnd (s : jsstring) : jsstring :=
  rev (JsString.dropWhile JsString.is_space (rev s)).

(** A block the scan of the JSON-LD blocks passes over: it parses to a
    value whose properties can be read, and is not relevant. *)
Definition passed_over (h : Host) (script : Element) : Prop :=
  exists json, JSON_parse h (inner script) = Ok json /\
               nullish json = false /\ relevant json = false.

(** A URL with one of the two schemes in front. *)
Definition has_scheme (url : jsstring) : bool :=
  startsWith url (js "http://") || startsWith url (js "https://").

(** The fallback message of the extraction route. *)
Definition extraction_fallback : jsstring :=
  js "Could not extract product information. Please fill in manually.".

(** An engine, a database and request bodies to run the store and the
    routes on. *)
Module StoreFixture.

(** The messages, as V8 words them for a call of what is no function. *)
Definition messages : Messages :=
  fun expression => expression ++ js " is not a function".

(** A host that writes the numbers 0 and 7 as their digit. *)
Definition engine : Host :=
  mkHost (fun url => JsString.truthy url)
         (fun _ _ _ => Throw (mkExn (js "TypeError") (js "fetch failed")))
         (fun _ => [])
         (fun _ => Throw Fixture.SyntaxError)
         (fun n => match n with
                   | S754_zero _ => js "0"
                   | S754_finite false 7881299347898368 (-50) => js "7"
                   | _ => js "NaN"
                   end)
         (fun _ => Ok (js "[object Object]")).

(** A [parseInt] that knows a run of decimal digits. *)
Definition parseInt (text : jsstring) : number :=
  if all_digits text && JsString.truthy text
  then Number.of_Z (Number.digits_value text) else Number.NaN.

(** A database that counts the rows it was given: an INSERT adds one and
    returns its number; UPDATE and DELETE find the rows 1 to 3 only. *)
Definition Db := N.
Definition sqlite : Store.Sqlite Db :=
  Store.mkSqlite Db
    (fun sql params db =>
       match sql with
       | Store.InsertPurchase =>
           (Ok (Store.mkRunInfo 1 (VNum (Number.of_Z (Z.of_N (db + 1))))),
            (db + 1)%N)
       | _ =>
           let id :=
             match sql with
             | Store.DeletePurchase => nth 0 params VUndefined
             | _ => nth 6 params VUndefined
             end in
           let found :=
             match id with
             | VNum n => SFeqb n (Number.of_Z 1) || SFeqb n (Number.of_Z 2) ||
                         SFeqb n (Number.of_Z 3)
             | _ => false
             end in
           (Ok (Store.mkRunInfo (if found then 1 else 0)%N
                                (VNum (Number.of_Z (Z.of_N db)))), db)
       end).

(** [{"name":" Sofa ","cost":"5000","bought":true}]. *)
Definition sofa : value :=
  VObj [(js "name", VStr (js " Sofa ")); (js "cost", VStr (js "5000"));
        (js "bought", VBool true)].

(** [{"name":"Sofa","cost":"free"}]. *)
Definition free_sofa : value :=
  VObj [(js "name", VStr (js "Sofa")); (js "cost", VStr (js "free"))].

(** [{"name":"   ","cost":"5000"}]. *)
Definition nameless : value :=
  VObj [(js "name", VStr (js "   ")); (js "cost", VStr (js "5000"))].

(** [{"url":" shop.example/p/1 "}]. *)
Definition link_request : value :=
  VObj [(js "url", VStr (js " shop.example/p/1 "))].

(** [{"url":"   "}]. *)
Definition blank_request : value := VObj [(js "url", VStr (js "   "))].

End StoreFixture.

(** More pages to run the extractor on. *)
Module MoreFixture.

Import Fixture.

(** [{"@type":"Product","name":"BILLY","offers":[]}]. *)
Definition sold_out_src : jsstring :=
  json_text "{'@type':'Product','name':'BILLY','offers':[]}".
Definition sold_out : value :=
  VObj [(js "@type", VStr (js "Product"));
        (js "name", VStr (js "BILLY"));
        (js "offers", VArr [])].

(** The texts of [Fixture.table], and [null]. *)
Definition table : list (jsstring * value) :=
  (js "null", VNull) :: (sold_out_src, sold_out) :: Fixture.table.

(** The shop that serves [doc]. *)
Definition shop (doc : Document) : Host := page doc table.

(** Open Graph: the price "399" only. *)
Definition og_399 : Document :=
  [meta_property (js "og:price") (js "399")].

(** JSON-LD: a block that is not relevant, the BILLY block, and a
    product with another price. *)
Definition ld_billy_first : Document :=
  [ld_json breadcrumb_src; ld_json billy_src; ld_json refund_src].

(** JSON-LD: the block [null], then the BILLY block. *)
Definition ld_null_then_billy : Document :=
  [ld_json (js "null"); ld_json billy_src].

(** JSON-LD: a product with an empty list of offers, then the BILLY
    block. *)
Definition ld_sold_out : Document :=
  [ld_json sold_out_src; ld_json billy_src].






End MoreFixture.

(** ** Properties *)

Section Properties.

Variable h : Host.

Lemma validate_keeps (d : ProductData) :
  validate d =
  if negb (title_truthy d) && negb (price_truthy d)
  then Throw ExtractionFailed else Ok d.
Proof.
  unfold validate.
  destruct (negb (title_truthy d) && negb (price_truthy d)); [reflexivity|].
  unfold price_truthy. destruct (price d) as [n|]; [|reflexivity].
  destruct n; reflexivity.
Qed.

Lemma extractProductInfo_fetched (url html : jsstring) :
  fetchUrl h url 5000 = Ok html ->
  snd (extractProductInfo h url) =
  validate (snd (chooseData h (cheerio_load h html))).
Proof.
  intros Hf. unfold extractProductInfo. rewrite Hf.
  destruct (chooseData h (cheerio_load h html)) as [entries data]. simpl.
  destruct (validate data); reflexivity.
Qed.

Lemma chooseData_first (doc : Document) :
  snd (chooseData h doc) =
  match first_result (strategies h) doc with
  | Some d => d
  | None => empty
  end.
Proof.
  unfold chooseData, strategies. simpl.
  destruct (extractOpenGraph doc); [reflexivity|].
  destruct (extractJsonLd h doc); [reflexivity|].
  destruct (extractBasicMeta doc); reflexivity.
Qed.

Lemma get_field (props : list (jsstring * value)) (k : jsstring) :
  get (VObj props) k = Ok (field (VObj props) k).
Proof. simpl. destruct (lookup k props); reflexivity. Qed.

Lemma get_truthy (v : value) (k : jsstring) :
  truthy v = true -> get v k = Ok (field v k).
Proof.
  destruct v; simpl; try discriminate; try reflexivity.
  intros _. destruct (lookup k props); reflexivity.
Qed.

Lemma none_nil (sel : list Element) : none sel = true -> sel = [].
Proof. destruct sel; [reflexivity | discriminate]. Qed.

Lemma no_signals_chooseData (doc : Document) :
  no_signals doc = true -> snd (chooseData h doc) = empty.
Proof.
  unfold no_signals. intros H.
  repeat (apply andb_prop in H; destruct H as [H ?]).
  repeat match goal with
         | [ H0 : none _ = true |- _ ] => apply none_nil in H0
         end.
  unfold chooseData, extractOpenGraph, extractJsonLd, extractBasicMeta.
  unfold ld_scripts in *.
  repeat match goal with
         | [ H0 : _ = [] |- _ ] => rewrite H0; clear H0
         end.
  reflexivity.
Qed.

(** C5 (confirmed).  [extractProductInfo] never merges fields across
    strategies: on a fetched page, the record it validates is the output
    of the first strategy, in the order Open Graph, JSON-LD, basic meta,
    that gave a record (the empty record when none did), and a record it
    returns is that record as it is. *)
Theorem first_strategy_wins_wholesale (url html : jsstring) :
  fetchUrl h url 5000 = Ok html ->
  let doc := cheerio_load h html in
  let chosen :=
    match first_result (strategies h) doc with
    | Some d => d
    | None => empty
    end in
  snd (chooseData h doc) = chosen /\
  snd (extractProductInfo h url) = validate chosen /\
  forall d, snd (extractProductInfo h url) = Ok d -> d = chosen.
Proof.
  intros Hf doc chosen.
  assert (Hc : snd (chooseData h doc) = chosen) by apply chooseData_first.
  assert (Hv : snd (extractProductInfo h url) = validate chosen).
  { rewrite (extractProductInfo_fetched _ _ Hf). fold doc. now rewrite Hc. }
  repeat split; trivial.
  intros d Hd. rewrite Hv, validate_keeps in Hd.
  destruct (negb (title_truthy chosen) && negb (price_truthy chosen));
    congruence.
Qed.

(** C4 (amended).  On a fetched page [extractProductInfo] fails with
    ExtractionFailed, message "Could not find product information on this
    page.", if and only if the chosen record has no truthy title (it is
    not set, or is empty) and no truthy price (it is not set, or is 0 or
    NaN); in particular a page with none of the recognised signals fails
    so. *)
Theorem extraction_fails_iff_nothing_truthy (url html : jsstring) :
  fetchUrl h url 5000 = Ok html ->
  let chosen := snd (chooseData h (cheerio_load h html)) in
  (snd (extractProductInfo h url) = Throw ExtractionFailed <->
   title_truthy chosen = false /\ price_truthy chosen = false) /\
  (no_signals (cheerio_load h html) = true ->
   snd (extractProductInfo h url) = Throw ExtractionFailed).
Proof.
  intros Hf chosen.
  rewrite (extractProductInfo_fetched _ _ Hf). fold chosen.
  rewrite validate_keeps. split.
  - destruct (title_truthy chosen), (price_truthy chosen); simpl;
      split; intros H; try discriminate; try reflexivity; auto;
      destruct H; discriminate.
  - intros Hn. unfold chosen. rewrite (no_signals_chooseData _ Hn).
    reflexivity.
Qed.

(** C10 (confirmed).  A price of 0 counts as absent in the usability
    check: when the chosen record has no title and a price of 0 (of
    either sign), extraction fails with ExtractionFailed. *)
Theorem zero_price_alone_fails (url html : jsstring) (sign : bool) :
  fetchUrl h url 5000 = Ok html ->
  let chosen := snd (chooseData h (cheerio_load h html)) in
  title chosen = None ->
  price chosen = Some (S754_zero sign) ->
  snd (extractProductInfo h url) = Throw ExtractionFailed.
Proof.
  intros Hf chosen Ht Hp.
  rewrite (extractProductInfo_fetched _ _ Hf). fold chosen.
  rewrite validate_keeps. unfold title_truthy, price_truthy.
  rewrite Ht, Hp. reflexivity.
Qed.

(** C8 (confirmed).  For a request [fetchUrl] issues: a response whose
    status is not a success is thrown as an UpstreamError with the status
    code in its message, a request the timeout aborted (an AbortError) is
    thrown as "Request timed out...", and markup is returned only from a
    successful response. *)
Theorem fetchUrl_failures (url : jsstring) (timeout : N) :
  URL_valid h url = true ->
  (forall r, fetch h url request_headers timeout = Ok r ->
             ok r = false ->
             fetchUrl h url timeout = Throw (UpstreamError (status r))) /\
  (forall e, fetch h url request_headers timeout = Throw e ->
             exn_name e = js "AbortError" ->
             fetchUrl h url timeout = Throw Timeout) /\
  (forall html, fetchUrl h url timeout = Ok html ->
                exists r, fetch h url request_headers timeout = Ok r /\
                          ok r = true /\ response_text r = Ok html).
Proof.
  intros Hu. unfold fetchUrl. rewrite Hu. fold request_headers.
  repeat split.
  - intros r Hr Hok. rewrite Hr. simpl. rewrite Hok. reflexivity.
  - intros e He Hn. rewrite He. simpl. rewrite Hn. reflexivity.
  - intros html Hh.
    destruct (fetch h url request_headers timeout) as [r|e] eqn:Hr; simpl in Hh.
    + exists r. destruct (ok r) eqn:Hok; simpl in Hh.
      * destruct (response_text r) as [t|e]; simpl in Hh.
        -- repeat split; congruence.
        -- destruct (JsString.eqb _ _); discriminate.
      * discriminate.
    + destruct (JsString.eqb _ _); discriminate.
Qed.

Lemma extractOpenGraph_image_only (doc : Document) (img : jsstring) :
  og_content (js "og:image") doc = Some img ->
  JsString.truthy img = true ->
  present (og_content (js "og:title") doc) = false ->
  present (og_content (js "og:price") doc) = false ->
  present (og_content (js "og:description") doc) = false ->
  extractOpenGraph doc =
  Some (mkData None None None (Some (VStr (JsString.trim img)))).
Proof.
  unfold og_content, extractOpenGraph. intros Hi Himg Ht Hp Hd.
  rewrite Hi, Himg.
  destruct (attr _ (select _ _ (js "og:title") doc)) as [t|];
    [simpl in Ht; rewrite Ht|];
    (destruct (attr _ (select _ _ (js "og:price") doc)) as [p|];
     [simpl in Hp; rewrite Hp|]);
    (destruct (attr _ (select _ _ (js "og:description") doc)) as [d|];
     [simpl in Hd; rewrite Hd|]);
    reflexivity.
Qed.

(** C9 (confirmed).  When the Open Graph strategy finds only an
    [og:image], it still returns a record, so the cascade stops there:
    the log has no entry of the JSON-LD or the basic-meta strategy, and
    [extractProductInfo] fails with ExtractionFailed whatever the rest of
    the page holds. *)
Theorem og_image_only_short_circuits (url html img : jsstring) :
  fetchUrl h url 5000 = Ok html ->
  let doc := cheerio_load h html in
  og_content (js "og:image") doc = Some img ->
  JsString.truthy img = true ->
  present (og_content (js "og:title") doc) = false ->
  present (og_content (js "og:price") doc) = false ->
  present (og_content (js "og:description") doc) = false ->
  let found := mkData None None None (Some (VStr (JsString.trim img))) in
  extractOpenGraph doc = Some found /\
  fst (extractProductInfo h url) =
    [LogExtracting url; LogOpenGraph (Some found);
     LogError (exn_message ExtractionFailed)] /\
  snd (extractProductInfo h url) = Throw ExtractionFailed.
Proof.
  intros Hf doc Hi Himg Ht Hp Hd found.
  pose proof (extractOpenGraph_image_only _ _ Hi Himg Ht Hp Hd) as Hog.
  fold found in Hog. split; [exact Hog|].
  unfold extractProductInfo, chooseData. rewrite Hf. fold doc. rewrite Hog.
  split; reflexivity.
Qed.

Lemma jsonLdLoop_skip (script : Element) (rest : list Element) (json : value) :
  JSON_parse h (inner script) = Ok json ->
  nullish json = false ->
  relevant json = false ->
  jsonLdLoop h (script :: rest) = jsonLdLoop h rest.
Proof.
  intros Hp Hn Hr. cbn [jsonLdLoop]. rewrite Hp. cbn [bind].
  destruct json; try discriminate; try reflexivity.
  rewrite !get_field. cbn [bind].
  unfold relevant, typed_block in Hr.
  apply orb_false_elim in Hr. destruct Hr as [Hty Hnest].
  rewrite Hty.
  destruct (truthy (field (VObj props) (js "offers"))) eqn:Ho.
  - rewrite (get_truthy _ (js "price") Ho). cbn [bind].
    cbn [andb] in Hnest. rewrite Hnest. reflexivity.
  - cbn [bind]. rewrite Ho. reflexivity.
Qed.

Lemma jsonLdLoop_skip_all (skipped rest : list Element) :
  Forall (fun s => exists json, JSON_parse h (inner s) = Ok json /\
                                nullish json = false /\
                                relevant json = false) skipped ->
  jsonLdLoop h (skipped ++ rest) = jsonLdLoop h rest.
Proof.
  induction 1 as [|s l [json [Hp [Hn Hr]]] _ IH]; [reflexivity|].
  rewrite <- app_comm_cons, (jsonLdLoop_skip _ _ _ Hp Hn Hr). exact IH.
Qed.

(** C2 (amended).  When the scan of the JSON-LD blocks reaches a block
    whose text does not parse (the blocks before it parsed and were not
    relevant), the failure is swallowed but the scan ends: the JSON-LD
    strategy returns null without trying the blocks that follow.  The
    extraction is not aborted: when Open Graph found nothing, the cascade
    goes on to the basic-meta strategy. *)
Theorem jsonld_parse_failure_ends_scan
    (doc : Document) (skipped : list Element) (bad : Element)
    (rest : list Element) (e : Exn) :
  ld_scripts doc = skipped ++ bad :: rest ->
  Forall (fun s => exists json, JSON_parse h (inner s) = Ok json /\
                                nullish json = false /\
                                relevant json = false) skipped ->
  JSON_parse h (inner bad) = Throw e ->
  extractJsonLd h doc = None /\
  (extractOpenGraph doc = None ->
   first_result (strategies h) doc = extractBasicMeta doc /\
   snd (chooseData h doc) =
     match extractBasicMeta doc with Some d => d | None => empty end).
Proof.
  intros Hs Hsk Hbad.
  assert (Hj : extractJsonLd h doc = None).
  { unfold extractJsonLd. fold (ld_scripts doc). rewrite Hs.
    rewrite (jsonLdLoop_skip_all _ _ Hsk). cbn [jsonLdLoop].
    rewrite Hbad. reflexivity. }
  split; [exact Hj|]. intros Hog.
  assert (Hfirst : first_result (strategies h) doc = extractBasicMeta doc).
  { unfold strategies. cbn [first_result]. rewrite Hog, Hj.
    destruct (extractBasicMeta doc); reflexivity. }
  split; [exact Hfirst|]. now rewrite chooseData_first, Hfirst.
Qed.


Lemma typed_block_object (json : value) :
  typed_block json = true -> exists props, json = VObj props.
Proof. destruct json; try discriminate. intros _. now exists props. Qed.









Lemma truthy_nil (s : jsstring) : JsString.truthy s = false <-> s = [].
Proof. destruct s; split; intros H; try reflexivity; discriminate. Qed.

(** C7 (amended).  The basic-meta strategy returns as title the trimmed
    content of [<meta name="title">] when it is there and not empty, and
    otherwise the trimmed text of [<title>] when that is not empty; as
    description the trimmed content of [<meta name="description">] when it
    is there and not empty; and null exactly when the title content is
    absent or empty, the [<title>] text is empty and the description
    content is absent or empty.  In particular a fetched page with the
    [<title>] text "Example Product - Shop" (with an en dash), a
    description and neither Open Graph nor JSON-LD data is extracted as
    that title and the trimmed description. *)
Theorem basic_meta_fields :
  (forall doc : Document,
      let m := meta_content (js "title") doc in
      let t := text (select_tag (js "title") doc) in
      let d := meta_content (js "description") doc in
      extractBasicMeta doc =
        data_or_null
          (mkData (or_else (trimmed m) (trimmed (Some t))) None (trimmed d) None) /\
      (extractBasicMeta doc = None <->
       present m = false /\ t = [] /\ present d = false)) /\
  (forall (url html c : jsstring),
      let doc := cheerio_load h html in
      let shop := js "Example Product " ++ [8211%N] ++ js " Shop" in
      fetchUrl h url 5000 = Ok html ->
      extractOpenGraph doc = None ->
      extractJsonLd h doc = None ->
      meta_content (js "title") doc = None ->
      text (select_tag (js "title") doc) = shop ->
      meta_content (js "description") doc = Some c ->
      JsString.truthy c = true ->
      snd (extractProductInfo h url) =
      Ok (mkData (Some (VStr shop)) None (Some (VStr (JsString.trim c))) None)).
Proof.
  assert (Hgen : forall doc : Document,
      extractBasicMeta doc =
        data_or_null
          (mkData (or_else (trimmed (meta_content (js "title") doc))
                           (trimmed (Some (text (select_tag (js "title") doc)))))
                  None (trimmed (meta_content (js "description") doc)) None)).
  { intros doc. unfold extractBasicMeta, meta_content, trimmed, or_else, present.
    destruct (attr _ (select _ _ (js "title") doc)) as [m|];
      [destruct (JsString.truthy m) eqn:Hm; [rewrite Hm|]|];
      destruct (JsString.truthy (text (select_tag (js "title") doc)));
      (destruct (attr _ (select _ _ (js "description") doc)) as [d|];
       [destruct (JsString.truthy d)|]);
      reflexivity. }
  split.
  - intros doc m t d. split; [apply Hgen|].
    rewrite Hgen. fold m t d. rewrite <- truthy_nil.
    unfold trimmed, or_else, present.
    destruct m as [m|]; [destruct (JsString.truthy m)|];
      destruct (JsString.truthy t);
      (destruct d as [d|]; [destruct (JsString.truthy d)|]);
      cbv; split; intros H; try discriminate; try reflexivity;
      try (repeat split; reflexivity);
      destruct H as [? [? ?]]; discriminate.
  - intros url html c doc shop Hf Hog Hj Hm Ht Hd Hc.
    rewrite (extractProductInfo_fetched _ _ Hf), chooseData_first.
    unfold strategies. cbn [first_result]. fold doc. rewrite Hog, Hj, Hgen.
    rewrite Hm, Ht, Hd. unfold trimmed. rewrite Hc. reflexivity.
Qed.

End Properties.

(** ** The properties on pages *)

Import Fixture.

(** C1 (code bug).  The Open Graph price "1 299,00": the run that is
    matched is the whole content, its space and its comma both become
    dots, and [parseFloat] reads "1.299.00" as 1.299; the record returned
    has the title and the price 1.299, not 1299.  [extractPriceFromMeta]
    reads the same content as 1299. *)
Theorem og_price_1_299_00_read_as_1_299 :
  match_price (js "1 299,00") = Some (js "1 299,00") /\
  commas_and_spaces_to_dots (js "1 299,00") = js "1.299.00" /\
  snd (extractProductInfo (shop og_spaced_price) url) =
    Ok (mkData (Some (VStr (js "BILLY")))
               (Some (Number.parseFloat (js "1.299"))) None None) /\
  Number.parseFloat (js "1.299") <> Number.of_Z 1299 /\
  extractPriceFromMeta og_spaced_price = Some (Number.of_Z 1299).
Proof.
  repeat split; try (vm_compute; reflexivity).
  vm_compute. discriminate.
Qed.

(** C3 (code bug).  A price that parses to NaN is returned next to a
    title: NaN is falsy, so the test that should drop it never holds.  A
    negative JSON-LD price is returned as it is. *)
Theorem nan_and_negative_prices_are_returned :
  snd (extractProductInfo (shop og_comma_price) url) =
    Ok (mkData (Some (VStr (js "BILLY"))) (Some Number.NaN) None None) /\
  snd (extractProductInfo (shop ld_refund) url) =
    Ok (mkData (Some (VStr (js "BILLY"))) (Some (Number.of_Z (-5))) None None) /\
  Number.is_negative (Number.of_Z (-5)) = true.
Proof. repeat split; vm_compute; reflexivity. Qed.

(** C5, on a page whose Open Graph data is a title and whose JSON-LD
    block has a price: the record returned is the Open Graph one, without
    a price. *)
Lemma first_strategy_wins_wholesale_witness :
  fetchUrl (shop og_title_and_billy) url 5000 = Ok (js "<html>") /\
  extractJsonLd (shop og_title_and_billy) og_title_and_billy =
    Some (mkData (Some (VStr (js "BILLY"))) (Some (Number.of_Z 399)) None None) /\
  snd (chooseData (shop og_title_and_billy) og_title_and_billy) =
    mkData (Some (VStr (js "BILLY bookcase"))) None None None /\
  forall d, snd (extractProductInfo (shop og_title_and_billy) url) = Ok d ->
            d = mkData (Some (VStr (js "BILLY bookcase"))) None None None.
Proof.
  split; [reflexivity|]. split; [reflexivity|].
  pose proof (first_strategy_wins_wholesale (shop og_title_and_billy) url
                (js "<html>") eq_refl) as [Hc [_ Hd]].
  split; [exact Hc | exact Hd].
Defined.

(** C4, against the claim as it is stated: the chosen record has a
    price, 0, next to its image, and extraction fails all the same. *)
Lemma zero_price_record_is_rejected :
  snd (chooseData (shop og_image_zero_price) og_image_zero_price) =
    mkData None (Some (Number.of_Z 0)) None (Some (VStr (js "i.png"))) /\
  ~ (snd (extractProductInfo (shop og_image_zero_price) url) = Throw ExtractionFailed <->
     title (snd (chooseData (shop og_image_zero_price) og_image_zero_price)) = None /\
     price (snd (chooseData (shop og_image_zero_price) og_image_zero_price)) = None).
Proof.
  split; [vm_compute; reflexivity|].
  intros [H _]. assert (Hf : snd (extractProductInfo (shop og_image_zero_price) url)
                             = Throw ExtractionFailed) by (vm_compute; reflexivity).
  destruct (H Hf) as [_ Hp]. vm_compute in Hp. discriminate Hp.
Qed.

(** C4, on a page without any signal. *)
Lemma extraction_fails_iff_nothing_truthy_witness :
  fetchUrl (shop plain) url 5000 = Ok (js "<html>") /\
  no_signals plain = true /\
  snd (extractProductInfo (shop plain) url) = Throw ExtractionFailed.
Proof.
  split; [reflexivity|]. split; [reflexivity|].
  exact (proj2 (extraction_fails_iff_nothing_truthy (shop plain) url
                  (js "<html>") eq_refl) eq_refl).
Defined.

(** C10, on a page whose Open Graph data is a description and the price
    "0.00". *)
Lemma zero_price_alone_fails_witness :
  snd (chooseData (shop og_free) og_free) =
    mkData None (Some (S754_zero false)) (Some (VStr (js "A free sample"))) None /\
  snd (extractProductInfo (shop og_free) url) = Throw ExtractionFailed.
Proof.
  split; [reflexivity|].
  exact (zero_price_alone_fails (shop og_free) url (js "<html>") false
           eq_refl eq_refl eq_refl).
Defined.

(** C8, on a server that answers 404 and on a request the timeout
    aborted. *)
Lemma fetchUrl_failures_witness :
  fetchUrl not_found url 5000 = Throw (UpstreamError 404) /\
  exn_message (UpstreamError 404) = js "Website returned error: 404" /\
  fetchUrl too_slow url 5000 = Throw Timeout.
Proof.
  split; [|split; [reflexivity|]].
  - exact (proj1 (fetchUrl_failures not_found url 5000 eq_refl)
             (mkResponse false 404 (Ok (js "Not Found"))) eq_refl eq_refl).
  - exact (proj1 (proj2 (fetchUrl_failures too_slow url 5000 eq_refl))
             (mkExn (js "AbortError") (js "This operation was aborted"))
             eq_refl eq_refl).
Defined.

(** C9, on a page with an [og:image] only and the BILLY block: the JSON-LD
    strategy would give a title and a price, and extraction fails. *)
Lemma og_image_only_short_circuits_witness :
  extractJsonLd (shop og_image_and_billy) og_image_and_billy =
    Some (mkData (Some (VStr (js "BILLY"))) (Some (Number.of_Z 399)) None None) /\
  fst (extractProductInfo (shop og_image_and_billy) url) =
    [LogExtracting url;
     LogOpenGraph
       (Some (mkData None None None
                     (Some (VStr (js "https://shop.example/billy.png")))));
     LogError (exn_message ExtractionFailed)] /\
  snd (extractProductInfo (shop og_image_and_billy) url) = Throw ExtractionFailed.
Proof.
  split; [reflexivity|].
  exact (proj2 (og_image_only_short_circuits (shop og_image_and_billy) url
                  (js "<html>") (js " https://shop.example/billy.png ")
                  eq_refl eq_refl eq_refl eq_refl eq_refl eq_refl)).
Defined.

(** C2, against the claim as it is stated: the second block parses and
    is relevant, alone it gives the BILLY record, and behind a malformed
    block it is not tried: the strategy returns null. *)
Lemma malformed_block_hides_the_next :
  JSON_parse (shop ld_malformed_then_billy) (inner (ld_json (js "{bad"))) =
    Throw SyntaxError /\
  JSON_parse (shop ld_malformed_then_billy) (inner (ld_json billy_src)) = Ok billy /\
  relevant billy = true /\
  extractJsonLd (shop ld_billy) ld_billy =
    Some (mkData (Some (VStr (js "BILLY"))) (Some (Number.of_Z 399)) None None) /\
  ~ extractJsonLd (shop ld_malformed_then_billy) ld_malformed_then_billy <> None.
Proof.
  repeat split; try (vm_compute; reflexivity).
  intros H. apply H. vm_compute. reflexivity.
Qed.

(** C2, on a page with a block that is not relevant, a malformed block,
    the BILLY block and a [<title>]: the title is what is extracted. *)
Lemma jsonld_parse_failure_ends_scan_witness :
  extractJsonLd (shop ld_malformed_with_title) ld_malformed_with_title = None /\
  snd (chooseData (shop ld_malformed_with_title) ld_malformed_with_title) =
    mkData (Some (VStr (js "Shop"))) None None None /\
  snd (extractProductInfo (shop ld_malformed_with_title) url) =
    Ok (mkData (Some (VStr (js "Shop"))) None None None).
Proof.
  assert (Hsk : Forall
            (fun s => exists json,
                 JSON_parse (shop ld_malformed_with_title) (inner s) = Ok json /\
                 nullish json = false /\ relevant json = false)
            [ld_json breadcrumb_src]).
  { constructor; [|constructor]. exists breadcrumb. repeat split; reflexivity. }
  destruct (jsonld_parse_failure_ends_scan (shop ld_malformed_with_title)
              ld_malformed_with_title [ld_json breadcrumb_src]
              (ld_json (js "{bad")) [ld_json billy_src] SyntaxError
              eq_refl Hsk eq_refl) as [Hj Hc].
  split; [exact Hj|]. split; [exact (proj2 (Hc eq_refl)) | reflexivity].
Defined.



(** C7, against the claim as it is stated: the description that is
    returned is not the content of the tag, which has spaces around it. *)
Lemma description_is_trimmed :
  meta_content (js "description") described = Some (js " hi ") /\
  extractBasicMeta described =
    Some (mkData None None (Some (VStr (js "hi"))) None) /\
  ~ (forall d c, extractBasicMeta described = Some d ->
                 meta_content (js "description") described = Some c ->
                 description d = Some (VStr c)).
Proof.
  repeat split; try (vm_compute; reflexivity).
  intros H. specialize (H _ _ eq_refl eq_refl). vm_compute in H. discriminate H.
Qed.

(** C7, on the page of the example. *)
Lemma basic_meta_fields_witness :
  extractBasicMeta titled =
    Some (mkData (Some (VStr shop_title)) None
                 (Some (VStr (js "A sturdy bookcase."))) None) /\
  snd (extractProductInfo (shop titled) url) =
    Ok (mkData (Some (VStr shop_title)) None
               (Some (VStr (js "A sturdy bookcase."))) None).
Proof.
  destruct (basic_meta_fields (shop titled)) as [Hgen Hex].
  split.
  - exact (proj1 (Hgen titled)).
  - exact (Hex url (js "<html>") (js " A sturdy bookcase. ")
             eq_refl eq_refl eq_refl eq_refl eq_refl eq_refl eq_refl).
Defined.

(** ** Further properties: strings and numbers *)

Lemma digit_not_space (c : N) :
  JsString.is_digit c = true -> JsString.is_space c = false.
Proof.
  unfold JsString.is_digit, JsString.is_space. intros H.
  apply andb_prop in H. destruct H as [H1 H2].
  apply N.leb_le in H1. apply N.leb_le in H2.
  cbn [existsb].
  repeat match goal with
         | |- context [N.eqb c ?k] => rewrite (proj2 (N.eqb_neq c k)) by lia
         end.
  rewrite (proj2 (N.leb_gt 8192 c)) by lia. reflexivity.
Qed.

Lemma dropWhile_head (p : N -> bool) (c : N) (r : jsstring) :
  p c = false -> JsString.dropWhile p (c :: r) = c :: r.
Proof. intros H. cbn. now rewrite H. Qed.

Lemma dropWhile_app (p : N -> bool) (a b : jsstring) :
  JsString.dropWhile p (a ++ b) =
  if forallb p a then JsString.dropWhile p b else JsString.dropWhile p a ++ b.
Proof.
  induction a as [|x a IH]; [reflexivity|].
  cbn. destruct (p x); [exact IH | reflexivity].
Qed.

Lemma dropWhile_idem (p : N -> bool) (s : jsstring) :
  JsString.dropWhile p (JsString.dropWhile p s) = JsString.dropWhile p s.
Proof.
  induction s as [|x s IH]; [reflexivity|].
  cbn. destruct (p x) eqn:Hx; [exact IH|]. cbn. now rewrite Hx.
Qed.

Lemma dropWhile_nil_forallb (p : N -> bool) (s : jsstring) :
  JsString.dropWhile p s = [] <-> forallb p s = true.
Proof.
  induction s as [|x s IH]; [now split|].
  cbn. destruct (p x); [exact IH|]. split; discriminate.
Qed.

Lemma trimEnd_cons (x : N) (s : jsstring) :
  trimEnd (x :: s) =
  match trimEnd s with
  | [] => if JsString.is_space x then [] else [x]
  | r => x :: r
  end.
Proof.
  unfold trimEnd. cbn [rev]. rewrite dropWhile_app.
  destruct (forallb JsString.is_space (rev s)) eqn:Hall.
  - apply dropWhile_nil_forallb in Hall. rewrite Hall. cbn.
    destruct (JsString.is_space x); reflexivity.
  - rewrite rev_app_distr. cbn.
    destruct (rev (JsString.dropWhile JsString.is_space (rev s))) eqn:Hr;
      [|reflexivity].
    apply (f_equal (@rev N)) in Hr. rewrite rev_involutive in Hr. cbn in Hr.
    apply dropWhile_nil_forallb in Hr. congruence.
Qed.

Lemma trimEnd_idem (s : jsstring) : trimEnd (trimEnd s) = trimEnd s.
Proof.
  induction s as [|x s IH]; [reflexivity|].
  rewrite trimEnd_cons. destruct (trimEnd s) as [|y r] eqn:Hs.
  - destruct (JsString.is_space x) eqn:Hx; [reflexivity|].
    rewrite trimEnd_cons. cbn. now rewrite Hx.
  - rewrite trimEnd_cons, IH. reflexivity.
Qed.

Lemma trimEnd_dropWhile (s : jsstring) :
  JsString.dropWhile JsString.is_space (trimEnd s) =
  trimEnd (JsString.dropWhile JsString.is_space s).
Proof.
  induction s as [|x s IH]; [reflexivity|].
  rewrite trimEnd_cons. cbn [JsString.dropWhile].
  destruct (JsString.is_space x) eqn:Hx.
  - destruct (trimEnd s) as [|y r] eqn:Hs.
    + rewrite <- IH. reflexivity.
    + cbn [JsString.dropWhile]. rewrite Hx. exact IH.
  - rewrite trimEnd_cons.
    destruct (trimEnd s) as [|y r]; cbn; now rewrite Hx.
Qed.

Lemma trim_trimEnd (s : jsstring) :
  JsString.trim s = trimEnd (JsString.dropWhile JsString.is_space s).
Proof. reflexivity. Qed.

Lemma trim_idem (s : jsstring) : JsString.trim (JsString.trim s) = JsString.trim s.
Proof.
  rewrite !trim_trimEnd, trimEnd_dropWhile, dropWhile_idem, trimEnd_idem.
  reflexivity.
Qed.

Lemma parseFloat_parts (s : jsstring) :
  Number.parseFloat s =
  let s0 := JsString.dropWhile JsString.is_space s in
  let '(neg, u) :=
    match s0 with
    | 43%N :: r => (false, r)
    | 45%N :: r => (true, r)
    | _ => (false, s0)
    end in
  parse_unsigned neg u.
Proof. reflexivity. Qed.

Lemma parseFloat_unsigned (s : jsstring) (c : N) (r : jsstring) :
  JsString.dropWhile JsString.is_space s = c :: r ->
  c <> 43%N -> c <> 45%N ->
  Number.parseFloat s = parse_unsigned false (c :: r).
Proof.
  intros H Hp Hm. rewrite parseFloat_parts, H. cbv zeta.
  destruct c as [|p]; [reflexivity|].
  repeat (destruct p as [p|p|]; try reflexivity; try congruence).
Qed.

Lemma parseFloat_blank (s : jsstring) :
  JsString.dropWhile JsString.is_space s = [] ->
  Number.parseFloat s = Number.NaN.
Proof. intros H. rewrite parseFloat_parts, H. reflexivity. Qed.

Lemma binary_round_aux_plus (mx ex : Z) (lx : location) :
  minus_sign (binary_round_aux Number.prec Number.emax false mx ex lx) = false.
Proof.
  unfold binary_round_aux.
  destruct (shr_fexp Number.prec Number.emax mx ex lx) as [mrs' e'].
  destruct (shr_fexp Number.prec Number.emax _ e' loc_Exact) as [mrs'' e''].
  destruct (shr_m mrs''); [reflexivity | | reflexivity].
  destruct (Z.leb e'' (Z.sub Number.emax Number.prec)); reflexivity.
Qed.

Lemma of_decimal_plus (m : positive) (k : Z) :
  minus_sign (Number.of_decimal false m k) = false.
Proof.
  unfold Number.of_decimal. destruct k as [|p|p].
  - unfold cond_Zopp, binary_normalize.
    destruct (Z.pos m * 10 ^ 0)%Z eqn:E; [reflexivity | | lia].
    unfold binary_round.
    destruct (shl_align _ _ _) as [mz ez]. apply binary_round_aux_plus.
  - unfold cond_Zopp, binary_normalize.
    destruct (Z.pos m * 10 ^ Z.pos p)%Z eqn:E; [reflexivity | |].
    + unfold binary_round.
      destruct (shl_align _ _ _) as [mz ez]. apply binary_round_aux_plus.
    + assert (0 < 10 ^ Z.pos p)%Z by (apply Z.pow_pos_nonneg; lia). nia.
  - unfold SFdiv.
    destruct (SFdiv_core_binary _ _ _ _ _ _) as [[mz ez] lz].
    apply binary_round_aux_plus.
Qed.

Lemma parse_unsigned_plus (u : jsstring) :
  minus_sign (parse_unsigned false u) = false.
Proof.
  unfold parse_unsigned.
  destruct (JsString.strip_prefix _ u); [reflexivity|].
  match goal with
  | |- context [let '(a, b) := ?X in _] => destruct X as [fp r2]
  end.
  destruct (_ ++ fp); [reflexivity|].
  destruct (Number.digits_value _); [reflexivity | apply of_decimal_plus | reflexivity].
Qed.

Lemma minus_sign_negative (x : number) :
  minus_sign x = false -> Number.is_negative x = false /\ x <> S754_zero true.
Proof. destruct x as [s|s| |s p e]; cbn; intros H; subst; split; congruence. Qed.

Lemma digits_value_nonneg (ds : jsstring) : (0 <= Number.digits_value ds)%Z.
Proof.
  unfold Number.digits_value.
  assert (H : forall acc, (0 <= acc)%Z ->
            (0 <= fold_left (fun a c => (a * 10 + Z.of_N (c - 48))%Z) ds acc)%Z).
  { induction ds as [|c r IH]; intros acc Ha; [exact Ha|].
    cbn [fold_left]. apply IH. lia. }
  apply H. lia.
Qed.

Lemma takeWhile_all (p : N -> bool) (s : jsstring) :
  forallb p s = true -> JsString.takeWhile p s = s.
Proof.
  induction s as [|x s IH]; [reflexivity|].
  cbn. destruct (p x); [|discriminate]. intros H. now rewrite IH.
Qed.

Lemma parseFloat_all_digits (ds : jsstring) :
  ds <> [] -> all_digits ds = true ->
  Number.parseFloat ds = Number.of_Z (Number.digits_value ds).
Proof.
  destruct ds as [|c r]; [congruence|]. intros _ Hall.
  assert (Hc : JsString.is_digit c = true).
  { unfold all_digits in Hall. cbn in Hall. now apply andb_prop in Hall. }
  assert (Hb : (48 <= c <= 57)%N).
  { unfold JsString.is_digit in Hc. apply andb_prop in Hc.
    destruct Hc as [H1 H2]. apply N.leb_le in H1. apply N.leb_le in H2. lia. }
  rewrite (parseFloat_unsigned (c :: r) c r); try lia;
    [|apply dropWhile_head, digit_not_space, Hc].
  unfold parse_unsigned.
  change (js "Infinity") with (73%N :: js "nfinity").
  cbn [JsString.strip_prefix].
  rewrite (proj2 (N.eqb_neq 73 c)) by lia.
  rewrite (takeWhile_all _ _ Hall).
  rewrite (proj2 (dropWhile_nil_forallb _ _) Hall).
  rewrite app_nil_r.
  pose proof (digits_value_nonneg (c :: r)) as Hnn.
  destruct (Number.digits_value (c :: r)) as [|v|v]; [reflexivity | | lia].
  change (Number.exponent [] - Z.of_nat (List.length (@nil N)))%Z with 0%Z.
  unfold Number.of_decimal, Number.of_Z, cond_Zopp.
  rewrite Z.pow_0_r, Z.mul_1_r. reflexivity.
Qed.

(** ** Further properties: the Open Graph strategy *)

Lemma data_or_null_some (d' d : ProductData) :
  data_or_null d' = Some d -> d = d'.
Proof.
  unfold data_or_null. destruct (Nat.ltb 0 (keys_length d')); congruence.
Qed.

Lemma data_or_null_priced (t : option value) (n : number) (d i : option value) :
  data_or_null (mkData t (Some n) d i) = Some (mkData t (Some n) d i).
Proof. destruct t, d, i; reflexivity. Qed.

Lemma match_price_nil : match_price [] = None.
Proof. reflexivity. Qed.

Lemma extractOpenGraph_fields (doc : Document) :
  extractOpenGraph doc =
  data_or_null
    (mkData (trimmed (og_content (js "og:title") doc))
            (og_price (og_content (js "og:price") doc))
            (trimmed (og_content (js "og:description") doc))
            (trimmed (og_content (js "og:image") doc))).
Proof.
  unfold extractOpenGraph, og_content, trimmed, og_price.
  destruct (attr _ (select _ _ (js "og:title") doc)) as [t|];
    [destruct (JsString.truthy t)|];
    (destruct (attr _ (select _ _ (js "og:price") doc)) as [p|];
     [destruct p as [|c p];
      [rewrite match_price_nil | destruct (match_price (c :: p))]|]);
    (destruct (attr _ (select _ _ (js "og:description") doc)) as [d|];
     [destruct (JsString.truthy d)|]);
    (destruct (attr _ (select _ _ (js "og:image") doc)) as [i|];
     [destruct (JsString.truthy i)|]);
    reflexivity.
Qed.

Lemma takeWhile_forallb (p : N -> bool) (s : jsstring) :
  forallb p (JsString.takeWhile p s) = true.
Proof.
  induction s as [|x s IH]; [reflexivity|].
  cbn. destruct (p x) eqn:Hx; [|reflexivity]. cbn. now rewrite Hx.
Qed.

Lemma match_price_run (s run : jsstring) :
  match_price s = Some run -> run <> [] /\ forallb price_char run = true.
Proof.
  unfold match_price.
  destruct (JsString.takeWhile price_char _) as [|c r] eqn:E; [discriminate|].
  intros H. inversion H; subst. split; [discriminate|].
  rewrite <- E. apply takeWhile_forallb.
Qed.

Lemma match_price_has_char (s : jsstring) :
  is_set (match_price s) = has_price_char s.
Proof.
  unfold match_price, has_price_char.
  induction s as [|x s IH]; [reflexivity|].
  cbn. destruct (price_char x) eqn:Hx; cbn; [now rewrite Hx | exact IH].
Qed.

Lemma dots_and_digits (s : jsstring) :
  forallb price_char s = true ->
  forallb (fun c => JsString.is_digit c || N.eqb c 46)
          (commas_and_spaces_to_dots s) = true.
Proof.
  unfold commas_and_spaces_to_dots.
  induction s as [|x s IH]; [reflexivity|].
  cbn [forallb map]. intros H. apply andb_prop in H. destruct H as [Hx Hs].
  rewrite (IH Hs), andb_true_r.
  unfold price_char in Hx.
  destruct (N.eqb x 44) eqn:H44; [reflexivity|].
  destruct (JsString.is_space x) eqn:Hsp; [reflexivity|].
  cbn [orb]. rewrite !orb_false_r in Hx. exact Hx.
Qed.

Lemma parseFloat_dots_and_digits (s : jsstring) :
  forallb (fun c => JsString.is_digit c || N.eqb c 46) s = true ->
  minus_sign (Number.parseFloat s) = false.
Proof.
  destruct s as [|c r]; [reflexivity|].
  cbn [forallb]. intros H. apply andb_prop in H. destruct H as [Hc _].
  assert (Hsp : JsString.is_space c = false /\ c <> 43%N /\ c <> 45%N).
  { apply orb_prop in Hc. destruct Hc as [Hd|Hdot].
    - split; [now apply digit_not_space|].
      unfold JsString.is_digit in Hd. apply andb_prop in Hd.
      destruct Hd as [H1 _]. apply N.leb_le in H1. lia.
    - apply N.eqb_eq in Hdot. subst c. split; [reflexivity | split; lia]. }
  destruct Hsp as [Hsp [Hp Hm]].
  rewrite (parseFloat_unsigned (c :: r) c r (dropWhile_head _ _ _ Hsp) Hp Hm).
  apply parse_unsigned_plus.
Qed.

(** X1.  A price the Open Graph strategy sets never carries a minus
    sign: it is not negative and it is not -0 (it is positive, +0,
    +Infinity or NaN). *)
Theorem og_price_never_negative (doc : Document) (d : ProductData) (n : number) :
  extractOpenGraph doc = Some d ->
  price d = Some n ->
  Number.is_negative n = false /\ n <> S754_zero true.
Proof.
  rewrite extractOpenGraph_fields. intros Hd Hp.
  apply data_or_null_some in Hd. subst d. cbn [price] in Hp.
  unfold og_price in Hp.
  destruct (og_content (js "og:price") doc) as [p|]; [|discriminate].
  destruct (match_price p) as [run|] eqn:Hrun; [|discriminate].
  inversion Hp; subst n. apply minus_sign_negative.
  apply parseFloat_dots_and_digits, dots_and_digits.
  exact (proj2 (match_price_run _ _ Hrun)).
Qed.

(** X2.  The Open Graph strategy sets a price exactly when the
    [og:price] content holds a digit, a comma, a dot or a white space;
    without any of these the record has no price. *)
Theorem og_price_set_iff_price_char (doc : Document) (d : ProductData) :
  extractOpenGraph doc = Some d ->
  is_set (price d) =
  match og_content (js "og:price") doc with
  | Some p => has_price_char p
  | None => false
  end.
Proof.
  rewrite extractOpenGraph_fields. intros Hd.
  apply data_or_null_some in Hd. subst d. cbn [price]. unfold og_price.
  destruct (og_content (js "og:price") doc) as [p|]; [|reflexivity].
  rewrite <- match_price_has_char. destruct (match_price p); reflexivity.
Qed.

Lemma data_or_null_none (d : ProductData) :
  data_or_null d = None <->
  title d = None /\ price d = None /\ description d = None /\ image d = None.
Proof.
  destruct d as [[t|] [p|] [ds|] [i|]]; cbv;
    split; intros H; try discriminate; try reflexivity;
    try (repeat split; reflexivity);
    destruct H as [? [? [? ?]]]; discriminate.
Qed.

Lemma trimmed_none (c : option jsstring) :
  trimmed c = None <-> present c = false.
Proof.
  unfold trimmed, present. destruct c as [t|]; [|now split].
  destruct (JsString.truthy t); split; intros H; try discriminate; reflexivity.
Qed.

Lemma og_price_none (c : option jsstring) :
  og_price c = None <->
  match c with Some p => has_price_char p | None => false end = false.
Proof.
  unfold og_price. destruct c as [p|]; [|now split].
  rewrite <- match_price_has_char.
  destruct (match_price p); split; intros H; try discriminate; reflexivity.
Qed.

(** X3.  The Open Graph strategy returns null exactly when the title,
    description and image contents are absent or empty and the price
    content is absent or holds no digit, comma, dot or white space. *)
Theorem og_null_iff (doc : Document) :
  extractOpenGraph doc = None <->
  present (og_content (js "og:title") doc) = false /\
  present (og_content (js "og:description") doc) = false /\
  present (og_content (js "og:image") doc) = false /\
  match og_content (js "og:price") doc with
  | Some p => has_price_char p
  | None => false
  end = false.
Proof.
  rewrite extractOpenGraph_fields, data_or_null_none.
  cbn [title price description image].
  rewrite !trimmed_none, og_price_none. tauto.
Qed.

Lemma extractBasicMeta_fields (doc : Document) :
  extractBasicMeta doc =
  data_or_null
    (mkData (or_else (trimmed (meta_content (js "title") doc))
                     (trimmed (Some (text (select_tag (js "title") doc)))))
            None (trimmed (meta_content (js "description") doc)) None).
Proof.
  unfold extractBasicMeta, meta_content, trimmed, or_else, present.
  destruct (attr _ (select _ _ (js "title") doc)) as [m|];
    [destruct (JsString.truthy m) eqn:Hm; [rewrite Hm|]|];
    destruct (JsString.truthy (text (select_tag (js "title") doc)));
    (destruct (attr _ (select _ _ (js "description") doc)) as [d|];
     [destruct (JsString.truthy d)|]);
    reflexivity.
Qed.

Lemma trimmed_is_trimmed (c : option jsstring) (s : jsstring) :
  trimmed c = Some (VStr s) -> JsString.trim s = s.
Proof.
  unfold trimmed. destruct c as [t|]; [|discriminate].
  destruct (JsString.truthy t); [|discriminate].
  intros H. inversion H. apply trim_idem.
Qed.

(** X4.  Every string the Open Graph and the basic-meta strategies put
    in a record is trimmed: it has no white space at its start or its
    end. *)
Theorem strategy_strings_are_trimmed (doc : Document) (d : ProductData)
    (s : jsstring) :
  extractOpenGraph doc = Some d \/ extractBasicMeta doc = Some d ->
  In (Some (VStr s)) [title d; description d; image d] ->
  JsString.trim s = s.
Proof.
  intros [Hd|Hd] Hin.
  - rewrite extractOpenGraph_fields in Hd. apply data_or_null_some in Hd.
    subst d. cbn [title description image In] in Hin.
    destruct Hin as [H|[H|[H|[]]]]; exact (trimmed_is_trimmed _ _ H).
  - rewrite extractBasicMeta_fields in Hd. apply data_or_null_some in Hd.
    subst d. cbn [title description image In] in Hin.
    destruct Hin as [H|[H|[H|[]]]]; try discriminate.
    + unfold or_else in H.
      destruct (trimmed (meta_content (js "title") doc)) eqn:E.
      * rewrite <- E in H. exact (trimmed_is_trimmed _ _ H).
      * exact (trimmed_is_trimmed _ _ H).
    + exact (trimmed_is_trimmed _ _ H).
Qed.

Lemma digit_price_char (c : N) :
  JsString.is_digit c = true ->
  price_char c = true /\ (N.eqb c 44 || JsString.is_space c) = false.
Proof.
  intros Hd. unfold price_char. rewrite Hd, (digit_not_space _ Hd).
  split; [reflexivity|].
  unfold JsString.is_digit in Hd. apply andb_prop in Hd.
  destruct Hd as [H1 _]. apply N.leb_le in H1.
  rewrite (proj2 (N.eqb_neq c 44)) by lia. reflexivity.
Qed.

Lemma match_price_digits (ds : jsstring) :
  ds <> [] -> all_digits ds = true ->
  match_price ds = Some ds /\ commas_and_spaces_to_dots ds = ds.
Proof.
  intros Hne Hall.
  assert (Hpc : forallb price_char ds = true /\
                commas_and_spaces_to_dots ds = ds).
  { clear Hne. unfold all_digits in Hall. unfold commas_and_spaces_to_dots.
    induction ds as [|c r IH]; [now split|].
    cbn in Hall. apply andb_prop in Hall. destruct Hall as [Hc Hr].
    destruct (digit_price_char _ Hc) as [H1 H2].
    destruct (IH Hr) as [IH1 IH2].
    cbn [forallb map]. rewrite H1, H2, IH1, IH2. now split. }
  destruct Hpc as [Hpc Hmap]. split; [|exact Hmap].
  destruct ds as [|c r]; [congruence|].
  unfold match_price. cbn [forallb] in Hpc.
  apply andb_prop in Hpc. destruct Hpc as [Hc Hr].
  rewrite dropWhile_head by now rewrite Hc.
  rewrite takeWhile_all; [reflexivity|]. cbn. now rewrite Hc, Hr.
Qed.

(** X5.  An [og:price] content that is a plain run of decimal digits is
    read as that integer (as the nearest number): the Open Graph strategy
    returns a record whose price is it. *)
Theorem og_plain_integer_price (doc : Document) (ds : jsstring) :
  og_content (js "og:price") doc = Some ds ->
  ds <> [] ->
  all_digits ds = true ->
  exists d, extractOpenGraph doc = Some d /\
            price d = Some (Number.of_Z (Number.digits_value ds)).
Proof.
  intros Hp Hne Hall.
  destruct (match_price_digits _ Hne Hall) as [Hm Hmap].
  rewrite extractOpenGraph_fields, Hp. unfold og_price.
  rewrite Hm, Hmap, (parseFloat_all_digits _ Hne Hall), data_or_null_priced.
  eexists. split; reflexivity.
Qed.

(** ** Further properties: JSON-LD, the orchestrator and [fetchUrl] *)

Lemma JsString_eqb_eq (a b : jsstring) : JsString.eqb a b = true <-> a = b.
Proof.
  revert b. induction a as [|x a IH]; intros [|y b]; cbn;
    try (split; [discriminate | congruence]); [now split|].
  rewrite andb_true_iff, N.eqb_eq, IH. split.
  - intros [-> ->]. reflexivity.
  - intros H. inversion H. now split.
Qed.

Section MoreProperties.

Variable h : Host.

Lemma relevant_object (json : value) :
  relevant json = true -> exists props, json = VObj props.
Proof. destruct json; try discriminate. intros _. now exists props. Qed.

Lemma jsonLdLoop_stop (script : Element) (rest : list Element) (json : value) :
  JSON_parse h (inner script) = Ok json ->
  relevant json = true ->
  jsonLdLoop h (script :: rest) = jsonLdLoop h [script].
Proof.
  intros Hp Hr. destruct (relevant_object _ Hr) as [props ->].
  cbn [jsonLdLoop]. rewrite Hp. cbn [bind]. rewrite !get_field. cbn [bind].
  unfold relevant, typed_block in Hr.
  destruct (is_string _ (js "Product") || is_string _ (js "Offer"));
    [reflexivity|].
  cbn [orb] in Hr. apply andb_prop in Hr. destruct Hr as [Ho Hn].
  rewrite Ho, (get_truthy _ (js "price") Ho). cbn [bind]. rewrite Hn.
  reflexivity.
Qed.

Lemma ld_script_alone (doc : Document) (script : Element) :
  In script (ld_scripts doc) -> ld_scripts [script] = [script].
Proof.
  unfold ld_scripts, select. intros Hin. apply filter_In in Hin.
  destruct Hin as [_ Hsel]. cbn [filter]. now rewrite Hsel.
Qed.

(** X6.  The scan of the JSON-LD blocks stops at the first relevant
    block: when each block before it parses to a value whose properties
    can be read (not null) and is not relevant, the strategy gives what
    it gives on a page with that block alone, whatever follows. *)
Theorem jsonld_first_relevant_wins (doc : Document)
    (skipped : list Element) (script : Element) (rest : list Element)
    (json : value) :
  ld_scripts doc = skipped ++ script :: rest ->
  Forall (passed_over h) skipped ->
  JSON_parse h (inner script) = Ok json ->
  relevant json = true ->
  extractJsonLd h doc = extractJsonLd h [script].
Proof.
  intros Hs Hsk Hp Hr.
  assert (Hin : In script (ld_scripts doc)).
  { rewrite Hs. apply in_or_app. right. now left. }
  unfold extractJsonLd. fold (ld_scripts doc). fold (ld_scripts [script]).
  rewrite (ld_script_alone _ _ Hin), Hs, (jsonLdLoop_skip_all h _ _ Hsk).
  now rewrite (jsonLdLoop_stop _ rest _ Hp Hr).
Qed.

Lemma extractFromSchema_no_offer (props : list (jsstring * value)) :
  isArray (field (VObj props) (js "offers")) = true ->
  nullish (first_entry (field (VObj props) (js "offers"))) = true ->
  extractFromSchema h (VObj props) = Throw TypeError.
Proof.
  intros Ha Hn. unfold extractFromSchema. rewrite !get_field. cbn [bind].
  destruct (field (VObj props) (js "offers")) as [| | | | |items|]; try discriminate.
  cbn [truthy isArray]. cbn [isArray] in Ha.
  destruct (first_entry (VArr items)); try discriminate; reflexivity.
Qed.

(** X7.  A block that is well-formed JSON still ends the scan with null
    when its properties cannot be read: the block [null], and a Product or
    Offer block whose offers is an empty list or a list that starts with
    null.  The blocks that follow are not tried and the name of the block
    is lost. *)
Theorem jsonld_unreadable_block_ends_scan (doc : Document)
    (skipped : list Element) (script : Element) (rest : list Element)
    (json : value) :
  ld_scripts doc = skipped ++ script :: rest ->
  Forall (passed_over h) skipped ->
  JSON_parse h (inner script) = Ok json ->
  json = VNull \/
  (typed_block json = true /\
   isArray (field json (js "offers")) = true /\
   nullish (first_entry (field json (js "offers"))) = true) ->
  extractJsonLd h doc = None.
Proof.
  intros Hs Hsk Hp Hcase.
  unfold extractJsonLd. fold (ld_scripts doc).
  rewrite Hs, (jsonLdLoop_skip_all h _ _ Hsk).
  cbn [jsonLdLoop]. rewrite Hp. cbn [bind].
  destruct Hcase as [->|[Ht [Ha Hn]]]; [reflexivity|].
  destruct (typed_block_object _ Ht) as [props ->].
  rewrite get_field. cbn [bind]. unfold typed_block in Ht. rewrite Ht.
  now rewrite (extractFromSchema_no_offer _ Ha Hn).
Qed.

Lemma jsonLdLoop_found (scripts : list Element) (d : ProductData) :
  jsonLdLoop h scripts = Ok (Some d) ->
  exists script json,
    In script scripts /\ JSON_parse h (inner script) = Ok json /\
    relevant json = true.
Proof.
  induction scripts as [|s l IH]; [discriminate|]. intros Hd.
  destruct (JSON_parse h (inner s)) as [json|e] eqn:Hp.
  - destruct (relevant json) eqn:Hr.
    + exists s, json. repeat split; trivial. now left.
    + destruct (nullish json) eqn:Hn.
      * cbn [jsonLdLoop] in Hd. rewrite Hp in Hd.
        destruct json; discriminate.
      * rewrite (jsonLdLoop_skip h _ _ _ Hp Hn Hr) in Hd.
        destruct (IH Hd) as [script [j [Hin [Hpj Hrj]]]].
        exists script, j. repeat split; trivial. now right.
  - cbn [jsonLdLoop] in Hd. rewrite Hp in Hd. discriminate.
Qed.

(** X8.  The JSON-LD strategy returns a record only from a relevant
    block: when it returns one, some block of the page parses to a value
    that is declared as a Product or an Offer or has an offers with a
    truthy price. *)
Theorem jsonld_only_from_relevant_block (doc : Document) (d : ProductData) :
  extractJsonLd h doc = Some d ->
  exists script json,
    In script (ld_scripts doc) /\ JSON_parse h (inner script) = Ok json /\
    relevant json = true.
Proof.
  unfold extractJsonLd. fold (ld_scripts doc). intros Hd.
  destruct (jsonLdLoop h (ld_scripts doc)) as [[d'|]|e] eqn:Hl;
    try discriminate.
  exact (jsonLdLoop_found _ _ Hl).
Qed.

(** X9.  A record [extractProductInfo] returns is usable: its title or
    its price is truthy; a price that is NaN or 0 is returned only next to
    a truthy title. *)
Theorem returned_record_is_usable (url : jsstring) (d : ProductData) :
  snd (extractProductInfo h url) = Ok d ->
  title_truthy d || price_truthy d = true /\
  (forall n, price d = Some n -> Number.truthy n = false ->
             title_truthy d = true).
Proof.
  unfold extractProductInfo.
  destruct (fetchUrl h url 5000) as [html|e]; [|discriminate].
  destruct (chooseData h (cheerio_load h html)) as [entries data].
  rewrite validate_keeps.
  destruct (negb (title_truthy data) && negb (price_truthy data)) eqn:Hu;
    [discriminate|].
  cbn [snd]. intros Hd. inversion Hd; subst d. split.
  - destruct (title_truthy data), (price_truthy data); try reflexivity.
    discriminate.
  - intros n Hn Hf. unfold price_truthy in Hu. rewrite Hn, Hf in Hu.
    destruct (title_truthy data); [reflexivity | discriminate].
Qed.

(** X10.  [extractProductInfo] throws nothing of its own but
    ExtractionFailed: an error it throws is the one [fetchUrl] threw,
    unchanged, or it is ExtractionFailed on a page that was fetched.  What
    the strategies throw inside never reaches the caller. *)
Theorem extraction_errors (url : jsstring) (e : Exn) :
  snd (extractProductInfo h url) = Throw e ->
  fetchUrl h url 5000 = Throw e \/
  (e = ExtractionFailed /\ exists html, fetchUrl h url 5000 = Ok html).
Proof.
  unfold extractProductInfo.
  destruct (fetchUrl h url 5000) as [html|e'].
  - destruct (chooseData h (cheerio_load h html)) as [entries data].
    rewrite validate_keeps.
    destruct (negb (title_truthy data) && negb (price_truthy data));
      cbn [snd]; intros He; [|discriminate].
    right. split; [congruence | now exists html].
  - cbn [snd]. intros He. left. congruence.
Qed.

(** X11.  [fetchUrl] never lets an AbortError out, and what it throws is
    one of: the invalid-URL error, the timeout error, the upstream error
    with the status of a response that is not ok, what [fetch] rejected
    with, or what reading the body threw. *)
Theorem fetchUrl_errors (url : jsstring) (timeout : N) (e : Exn) :
  fetchUrl h url timeout = Throw e ->
  exn_name e <> js "AbortError" /\
  (e = Error (js "Invalid URL format. Please enter a valid URL.") \/
   e = Timeout \/
   (exists r, fetch h url request_headers timeout = Ok r /\
              ok r = false /\ e = UpstreamError (status r)) \/
   fetch h url request_headers timeout = Throw e \/
   (exists r, fetch h url request_headers timeout = Ok r /\
              ok r = true /\ response_text r = Throw e)).
Proof.
  unfold fetchUrl. fold request_headers.
  assert (Hcatch : forall x : Exn,
            (if JsString.eqb (exn_name x) (js "AbortError")
             then Throw Timeout else @Throw jsstring x) = Throw e ->
            exn_name e <> js "AbortError" /\ (e = Timeout \/ e = x)).
  { intros x. destruct (JsString.eqb (exn_name x) (js "AbortError")) eqn:Hx;
      intros He; inversion He; subst e.
    - split; [discriminate | now left].
    - split; [|now right]. intros Hn. apply JsString_eqb_eq in Hn. congruence. }
  destruct (URL_valid h url).
  - destruct (fetch h url request_headers timeout) as [r|x] eqn:Hr;
      cbn [bind try_catch].
    + destruct (ok r) eqn:Hok; cbn [negb].
      * destruct (response_text r) as [t|x] eqn:Ht; cbn [bind try_catch];
          [discriminate|].
        intros He. apply (Hcatch x) in He. destruct He as [Hn [->| ->]];
          (split; [exact Hn|]); [now right; left|].
        right; right; right; right. now exists r.
      * cbn [try_catch]. intros He.
        apply (Hcatch (UpstreamError (status r))) in He.
        destruct He as [Hn [->| ->]];
          (split; [exact Hn|]); [now right; left|].
        right; right; left. now exists r.
    + intros He. apply (Hcatch x) in He. destruct He as [Hn [->| ->]];
        (split; [exact Hn|]); [now right; left|].
      right; right; right; left. reflexivity.
  - cbn [try_catch]. intros He.
    apply (Hcatch (Error (js "Invalid URL format. Please enter a valid URL.")))
      in He.
    destruct He as [Hn [->| ->]];
      (split; [exact Hn|]); [now right; left | now left].
Qed.

End MoreProperties.

(** X12.  The price reader [extractPriceFromMeta], which the
    orchestrator does not call, returns a price only when it is greater
    than 0: never 0, a negative number or NaN. *)
Theorem extractPriceFromMeta_positive (doc : Document) (p : number) :
  extractPriceFromMeta doc = Some p -> Number.is_positive p = true.
Proof.
  unfold extractPriceFromMeta.
  destruct (attr _ (select _ _ (js "og:price") doc)) as [s|].
  - destruct (JsString.truthy s && Number.is_positive _) eqn:H1.
    + intros H. inversion H; subst p. now apply andb_prop in H1.
    + destruct (first_data_price doc) as [t|]; [|discriminate].
      destruct (JsString.truthy t && Number.is_positive _) eqn:H2;
        [|discriminate].
      intros H. inversion H; subst p. now apply andb_prop in H2.
  - destruct (first_data_price doc) as [t|]; [|discriminate].
    destruct (JsString.truthy t && Number.is_positive _) eqn:H2;
      [|discriminate].
    intros H. inversion H; subst p. now apply andb_prop in H2.
Qed.

(** ** Further properties: the store and the routes *)

Section StoreProperties.

Variable h : Host.
Variable m : Messages.

Lemma addPurchase_checks_ok (name cost : value) (t : jsstring) (n : number) :
  Store.addPurchase_checks h m name cost = Ok (t, n) ->
  exists s, name = VStr s /\ t = JsString.trim s /\ JsString.trim s <> [] /\
            nullish cost = false /\ parseFloat h cost = Ok n /\
            Number.isNaN n = false /\ Number.is_negative n = false.
Proof.
  unfold Store.addPurchase_checks.
  destruct (truthy name) eqn:Hn; cbn [negb bind]; [|discriminate].
  destruct name; cbn [trim_call bind]; try discriminate.
  destruct (JsString.trim s) as [|c r] eqn:Ht; cbn [JsString.eqb];
    [discriminate|].
  destruct (nullish cost) eqn:Hc; [discriminate|].
  destruct (parseFloat h cost) as [n0|e] eqn:Hp; cbn [bind]; [|discriminate].
  destruct (Number.isNaN n0 || Number.is_negative n0) eqn:Hv; [discriminate|].
  apply orb_false_elim in Hv. destruct Hv as [Hnan Hneg].
  cbn [trim_call bind]. intros H. inversion H; subst t n.
  exists s. rewrite Ht. repeat split; trivial. discriminate.
Qed.

Lemma updatePurchase_checks_same (name cost : value) :
  Store.updatePurchase_checks h m name cost =
  Store.addPurchase_checks h m name cost.
Proof. reflexivity. Qed.

(** X13.  [addPurchase] either rejects its arguments, with an error that
    does not depend on the database and without running a statement (the
    database is left as it was), or runs the INSERT once with a trimmed
    name that is not empty and a cost that is neither NaN nor negative,
    and returns the fields it stored with the row id of the INSERT. *)
Theorem addPurchase_inserts_only_valid
    (name link cost bought comments room : value) :
  (exists e, forall (Db : Type) (sqlite : Store.Sqlite Db) (db : Db),
      Store.addPurchase h m Db sqlite name link cost bought comments room db =
      (Throw e, db)) \/
  (exists s n,
      name = VStr s /\ JsString.trim s <> [] /\
      parseFloat h cost = Ok n /\
      Number.isNaN n = false /\ Number.is_negative n = false /\
      forall (Db : Type) (sqlite : Store.Sqlite Db) (db : Db),
        Store.addPurchase h m Db sqlite name link cost bought comments room db =
        match Store.run sqlite Store.InsertPurchase
                [VStr (JsString.trim s); or_empty link; VNum n;
                 VNum (one_or_zero bought); or_empty comments; or_empty room]
                db with
        | (Throw e, db') => (Throw e, db')
        | (Ok result, db') =>
            (Ok (Store.mkPurchase (Store.lastInsertRowid result)
                   (JsString.trim s) (or_empty link) n (one_or_zero bought)
                   (or_empty comments) (or_empty room)), db')
        end).
Proof.
  destruct (Store.addPurchase_checks h m name cost) as [[t n]|e] eqn:Hc.
  - right. destruct (addPurchase_checks_ok _ _ _ _ Hc)
      as [s [-> [-> [Ht [_ [Hp [Hnan Hneg]]]]]]].
    exists s, n. repeat split; trivial.
    intros Db sqlite db. unfold Store.addPurchase. rewrite Hc. reflexivity.
  - left. exists e. intros Db sqlite db. unfold Store.addPurchase.
    now rewrite Hc.
Qed.

(** X14.  [updatePurchase] validates as [addPurchase] does and then runs
    the UPDATE once; when the UPDATE changed no row it throws "Purchase
    with ID <id> not found", and otherwise it returns the fields it stored
    under the id it was given. *)
Theorem updatePurchase_outcomes
    (id name link cost bought comments room : value) (shown : jsstring) :
  ToString h id = Ok shown ->
  (exists e, forall (Db : Type) (sqlite : Store.Sqlite Db) (db : Db),
      Store.updatePurchase h m Db sqlite id name link cost bought comments room db =
      (Throw e, db)) \/
  (exists s n,
      name = VStr s /\ JsString.trim s <> [] /\
      parseFloat h cost = Ok n /\
      Number.isNaN n = false /\ Number.is_negative n = false /\
      forall (Db : Type) (sqlite : Store.Sqlite Db) (db : Db),
        Store.updatePurchase h m Db sqlite id name link cost bought comments room db =
        match Store.run sqlite Store.UpdatePurchase
                [VStr (JsString.trim s); or_empty link; VNum n;
                 VNum (one_or_zero bought); or_empty comments; or_empty room; id]
                db with
        | (Throw e, db') => (Throw e, db')
        | (Ok result, db') =>
            if N.eqb (Store.changes result) 0 then
              (Throw (Error (js "Purchase with ID " ++ shown ++ js " not found")),
               db')
            else
              (Ok (Store.mkPurchase id (JsString.trim s) (or_empty link) n
                     (one_or_zero bought) (or_empty comments) (or_empty room)),
               db')
        end).
Proof.
  intros Hid.
  destruct (Store.addPurchase_checks h m name cost) as [[t n]|e] eqn:Hc.
  - right. destruct (addPurchase_checks_ok _ _ _ _ Hc)
      as [s [-> [-> [Ht [_ [Hp [Hnan Hneg]]]]]]].
    exists s, n. repeat split; trivial.
    intros Db sqlite db. unfold Store.updatePurchase, Store.notFound.
    rewrite updatePurchase_checks_same, Hc, Hid. cbn [bind].
    destruct (Store.run sqlite _ _ db) as [[result|e] db']; [|reflexivity].
    destruct (N.eqb (Store.changes result) 0); reflexivity.
  - left. exists e. intros Db sqlite db. unfold Store.updatePurchase.
    now rewrite updatePurchase_checks_same, Hc.
Qed.

End StoreProperties.

Lemma strip_prefix_app (p t : jsstring) :
  JsString.strip_prefix p (p ++ t) = Some t.
Proof.
  induction p as [|x p IH]; [reflexivity|].
  cbn. now rewrite N.eqb_refl.
Qed.

Lemma has_scheme_urlToFetch (trimmed : jsstring) :
  has_scheme (Server.urlToFetch trimmed) = true.
Proof.
  unfold Server.urlToFetch, has_scheme.
  destruct (startsWith trimmed (js "http://")) eqn:Ha; cbn [negb andb orb].
  - now rewrite Ha.
  - destruct (startsWith trimmed (js "https://")) eqn:Hb; cbn [negb].
    + now rewrite Ha, Hb.
    + unfold startsWith at 2. rewrite strip_prefix_app. apply orb_true_r.
Qed.

(** X15.  The URL the extraction route fetches always starts with
    [http://] or [https://]: a trimmed URL that has one of the two schemes
    is fetched as it is, any other gets [https://] in front; doing it
    twice changes nothing more. *)
Theorem urlToFetch_has_scheme (trimmed : jsstring) :
  has_scheme (Server.urlToFetch trimmed) = true /\
  Server.urlToFetch trimmed =
    (if has_scheme trimmed then trimmed else js "https://" ++ trimmed) /\
  Server.urlToFetch (Server.urlToFetch trimmed) = Server.urlToFetch trimmed.
Proof.
  assert (H2 : forall t, Server.urlToFetch t =
                         if has_scheme t then t else js "https://" ++ t).
  { intros t. unfold Server.urlToFetch, has_scheme.
    destruct (startsWith t (js "http://")), (startsWith t (js "https://"));
      reflexivity. }
  split; [apply has_scheme_urlToFetch|]. split; [apply H2|].
  rewrite (H2 (Server.urlToFetch trimmed)), has_scheme_urlToFetch. reflexivity.
Qed.

Section RouteProperties.

Variable h : Host.
Variable m : Messages.
Variable Db : Type.
Variable sqlite : Store.Sqlite Db.
Variable parseInt : jsstring -> number.

Lemma extractLink_string (reqBody : value) (s : jsstring) :
  nullish reqBody = false ->
  field reqBody (js "url") = VStr s ->
  JsString.trim s <> [] ->
  Server.extractLink h m reqBody =
  (Server.Requested (Server.urlToFetch (JsString.trim s)) ::
     map Server.FromExtractor
         (fst (extractProductInfo h (Server.urlToFetch (JsString.trim s)))) ++
     match snd (extractProductInfo h (Server.urlToFetch (JsString.trim s))) with
     | Ok _ => []
     | Throw e => [Server.Failed e]
     end,
   match snd (extractProductInfo h (Server.urlToFetch (JsString.trim s))) with
   | Ok d => Server.mkHttp 200 (Server.ExtractedBody d)
   | Throw e =>
       Server.mkHttp 400
         (Server.FailureBody (or_default (exn_message e) extraction_fallback))
   end).
Proof.
  intros Hb Hu Ht. unfold Server.extractLink, member, Server.blank.
  rewrite Hb, Hu. cbn [bind truthy trim_call].
  assert (Hs : JsString.truthy s = true).
  { destruct s; [now cbn in Ht|reflexivity]. }
  rewrite Hs. cbn [negb bind].
  assert (Htt : JsString.truthy (JsString.trim s) = true).
  { destruct (JsString.trim s); [congruence|reflexivity]. }
  rewrite Htt. cbn [negb].
  destruct (extractProductInfo h (Server.urlToFetch (JsString.trim s)))
    as [entries [d|e]]; cbn [fst snd].
  - now rewrite app_nil_r.
  - reflexivity.
Qed.

(** X16.  [POST /api/extract-link] with a URL string that is not blank
    runs the extractor once, on the trimmed URL with its scheme, and
    answers 200 with the record the extractor returned, or 400 with the
    message of the error it threw (the fallback text when that message is
    empty). *)
Theorem extractLink_follows_extractor (reqBody : value) (s : jsstring) :
  nullish reqBody = false ->
  field reqBody (js "url") = VStr s ->
  JsString.trim s <> [] ->
  let target := Server.urlToFetch (JsString.trim s) in
  has_scheme target = true /\
  (forall d, snd (extractProductInfo h target) = Ok d ->
             snd (Server.extractLink h m reqBody) =
             Server.mkHttp 200 (Server.ExtractedBody d)) /\
  (forall e, snd (extractProductInfo h target) = Throw e ->
             snd (Server.extractLink h m reqBody) =
             Server.mkHttp 400
               (Server.FailureBody
                  (or_default (exn_message e) extraction_fallback))) /\
  exists tail,
    fst (Server.extractLink h m reqBody) =
    Server.Requested target ::
      map Server.FromExtractor (fst (extractProductInfo h target)) ++ tail.
Proof.
  intros Hb Hu Ht target.
  rewrite (extractLink_string _ _ Hb Hu Ht). fold target. cbn [fst snd].
  split; [apply has_scheme_urlToFetch|].
  split; [|split].
  - intros d Hd. now rewrite Hd.
  - intros e He. now rewrite He.
  - eexists. reflexivity.
Qed.

(** X17.  [POST /api/extract-link] answers 200 or 400 and nothing else,
    whatever the request body is; a 200 carries the record the extractor
    returned for the URL string of the body, trimmed and with its
    scheme. *)
Theorem extractLink_answers (reqBody : value) :
  (Server.code (snd (Server.extractLink h m reqBody)) = 200%N \/
   Server.code (snd (Server.extractLink h m reqBody)) = 400%N) /\
  (Server.code (snd (Server.extractLink h m reqBody)) = 200%N ->
   exists s d,
     field reqBody (js "url") = VStr s /\
     snd (extractProductInfo h (Server.urlToFetch (JsString.trim s))) = Ok d /\
     Server.body (snd (Server.extractLink h m reqBody)) = Server.ExtractedBody d).
Proof.
  destruct (nullish reqBody) eqn:Hb.
  { unfold Server.extractLink, member. rewrite Hb. cbn.
    split; [now right | discriminate]. }
  destruct (field reqBody (js "url")) as [| |b|n|s|items|props] eqn:Hu.
  1-4, 6-7:
    unfold Server.extractLink, member, Server.blank; rewrite Hb, Hu;
    cbn [bind truthy negb trim_call];
    try (destruct b); try (destruct (Number.truthy n));
    cbn [bind negb trim_call fst snd Server.code];
    (split; [now right | discriminate]).
  destruct (JsString.trim s) as [|c r] eqn:Ht.
  - unfold Server.extractLink, member, Server.blank. rewrite Hb, Hu.
    cbn [bind truthy trim_call]. rewrite Ht.
    destruct (JsString.truthy s); cbn; (split; [now right | discriminate]).
  - assert (Hne : JsString.trim s <> []) by (rewrite Ht; discriminate).
    rewrite (extractLink_string _ _ Hb Hu Hne). cbn [snd].
    destruct (snd (extractProductInfo h (Server.urlToFetch (JsString.trim s))))
      as [d|e] eqn:Hx; cbn [Server.code Server.body].
    + split; [now left|]. intros _. exists s, d. repeat split; trivial.
    + split; [now right | discriminate].
Qed.

(** X18.  [POST /api/extract-link] without a URL (the property is
    missing, falsy, or a string of white space only) answers 400 "URL is
    required" and does not run the extractor: nothing is logged. *)
Theorem extractLink_without_url (reqBody : value) :
  nullish reqBody = false ->
  truthy (field reqBody (js "url")) = false \/
  (exists s, field reqBody (js "url") = VStr s /\ JsString.trim s = []) ->
  Server.extractLink h m reqBody =
  ([], Server.mkHttp 400 (Server.ErrorBody (js "URL is required"))).
Proof.
  intros Hb Hcase. unfold Server.extractLink, member, Server.blank.
  rewrite Hb. cbn [bind]. destruct Hcase as [Hf|[s [Hu Ht]]].
  - rewrite Hf. reflexivity.
  - rewrite Hu. cbn [truthy trim_call]. rewrite Ht.
    destruct (JsString.truthy s); reflexivity.
Qed.

Lemma routeChecks_none (name cost : value) :
  Server.routeChecks m name cost = Ok None ->
  exists s, name = VStr s /\ JsString.trim s <> [] /\
            nullish cost = false /\ is_string cost [] = false.
Proof.
  unfold Server.routeChecks, Server.blank.
  destruct (truthy name) eqn:Hn; cbn [negb bind]; [|discriminate].
  destruct name; cbn [trim_call bind]; try discriminate.
  destruct (JsString.trim s) as [|c r] eqn:Ht; cbn [JsString.truthy negb];
    [discriminate|].
  destruct (nullish cost || is_string cost []) eqn:Hc; [discriminate|].
  apply orb_false_elim in Hc. destruct Hc as [H1 H2]. intros _.
  exists s. repeat split; trivial. now rewrite Ht.
Qed.

Lemma routeChecks_cases (name cost : value) :
  (exists e, Server.routeChecks m name cost = Throw e) \/
  (exists text, Server.routeChecks m name cost =
                Ok (Some (Server.mkHttp 400 (Server.ErrorBody text)))) \/
  Server.routeChecks m name cost = Ok None.
Proof.
  unfold Server.routeChecks, Server.blank.
  destruct (truthy name); cbn [negb bind];
    [|right; left; eexists; reflexivity].
  destruct (trim_call m (js "name.trim") name) as [t|e]; cbn [bind];
    [|left; eexists; reflexivity].
  destruct (negb (JsString.truthy t)); [right; left; eexists; reflexivity|].
  destruct (nullish cost || is_string cost []);
    [right; left; eexists; reflexivity | right; right; reflexivity].
Qed.

(** X19.  [POST /api/purchases] answers 201 only for a purchase it
    stored: the INSERT ran once on the database of the request, and the
    purchase sent back has a trimmed name that is not empty, a cost that is
    neither NaN nor negative, a bought flag of 1 or 0, the fields that
    INSERT was given and the row id it returned. *)
Theorem postPurchase_created_only_valid
    (reqBody : value) (db db' : Db) (log : list Server.ServerLog)
    (response : Server.HttpResponse) :
  Server.postPurchase h m Db sqlite reqBody db = (log, response, db') ->
  Server.code response = 201%N ->
  exists p result,
    Server.body response = Server.PurchaseBody p /\
    log = [] /\
    Store.run sqlite Store.InsertPurchase
      [VStr (Store.name p); Store.link p; VNum (Store.cost p);
       VNum (Store.bought p); Store.comments p; Store.room p] db =
      (Ok result, db') /\
    Store.id p = Store.lastInsertRowid result /\
    JsString.trim (Store.name p) = Store.name p /\
    Store.name p <> [] /\
    Number.isNaN (Store.cost p) = false /\
    Number.is_negative (Store.cost p) = false /\
    (Store.bought p = Number.of_Z 1 \/ Store.bought p = Number.of_Z 0).
Proof.
  unfold Server.postPurchase, member.
  destruct (nullish reqBody); cbn [bind];
    [intros H; inversion H; subst; discriminate|].
  destruct (routeChecks_cases (field reqBody (js "name"))
              (field reqBody (js "cost"))) as [[e He]|[[text He]|He]];
    rewrite He.
  1-2: intros H; inversion H; subst; discriminate.
  unfold Store.addPurchase.
  destruct (Store.addPurchase_checks h m _ _) as [[t n]|e] eqn:Hc;
    [|intros H; inversion H; subst; discriminate].
  destruct (addPurchase_checks_ok _ _ _ _ _ _ Hc)
    as [s [Hname [-> [Ht [_ [Hp [Hnan Hneg]]]]]]].
  destruct (Store.run sqlite _ _ db) as [[result|e] db1] eqn:Hrun;
    intros H; inversion H; subst; [|discriminate].
  intros _. eexists. exists result. cbn.
  repeat split; trivial.
  - apply trim_idem.
  - unfold one_or_zero. destruct (truthy _); [now left | now right].
Qed.

(** X20.  [POST /api/purchases] with a cost that is there but does not
    parse to a number, or parses to a negative one, answers 500 (not 400)
    with "Cost must be a valid positive number", and stores nothing. *)
Theorem postPurchase_invalid_cost
    (reqBody : value) (db : Db) (s : jsstring) (n : number) :
  nullish reqBody = false ->
  field reqBody (js "name") = VStr s ->
  JsString.trim s <> [] ->
  nullish (field reqBody (js "cost")) = false ->
  is_string (field reqBody (js "cost")) [] = false ->
  parseFloat h (field reqBody (js "cost")) = Ok n ->
  Number.isNaN n || Number.is_negative n = true ->
  Server.postPurchase h m Db sqlite reqBody db =
  ([Server.Failed (Error (js "Cost must be a valid positive number"))],
   Server.mkHttp 500 (Server.ErrorBody (js "Cost must be a valid positive number")),
   db).
Proof.
  intros Hb Hn Ht Hc1 Hc2 Hp Hv.
  assert (Hs : JsString.truthy s = true).
  { destruct s; [now cbn in Ht|reflexivity]. }
  assert (Htt : JsString.truthy (JsString.trim s) = true).
  { destruct (JsString.trim s); [congruence|reflexivity]. }
  assert (Heq : JsString.eqb (JsString.trim s) [] = false).
  { destruct (JsString.trim s); [congruence|reflexivity]. }
  unfold Server.postPurchase, member, Server.routeChecks, Server.blank.
  rewrite Hb. cbn [bind]. rewrite Hn. cbn [truthy trim_call].
  rewrite Hs. cbn [negb bind]. rewrite Htt, Hc1, Hc2. cbn [negb orb].
  unfold Store.addPurchase, Store.addPurchase_checks.
  cbn [truthy trim_call]. rewrite Hs. cbn [negb bind].
  rewrite Heq, Hc1, Hp. cbn [bind]. rewrite Hv. reflexivity.
Qed.

(** X21.  The blank checks of the purchase routes come first: a name
    that is missing, falsy or white space only is answered 400 "Product
    name is required", and with a name a cost that is missing, null or the
    empty string is answered 400 "Cost is required"; in both cases nothing
    is logged and the database is left as it was, for POST and for PUT. *)
Theorem purchase_routes_reject_blank (idParam : jsstring) (reqBody : value)
    (db : Db) :
  nullish reqBody = false ->
  (truthy (field reqBody (js "name")) = false \/
   (exists s, field reqBody (js "name") = VStr s /\ JsString.trim s = []) ->
   Server.postPurchase h m Db sqlite reqBody db =
     ([], Server.mkHttp 400 (Server.ErrorBody (js "Product name is required")), db) /\
   Server.putPurchase h m Db sqlite parseInt idParam reqBody db =
     ([], Server.mkHttp 400 (Server.ErrorBody (js "Product name is required")), db)) /\
  ((exists s, field reqBody (js "name") = VStr s /\ JsString.trim s <> []) ->
   nullish (field reqBody (js "cost")) = true \/
   field reqBody (js "cost") = VStr [] ->
   Server.postPurchase h m Db sqlite reqBody db =
     ([], Server.mkHttp 400 (Server.ErrorBody (js "Cost is required")), db) /\
   Server.putPurchase h m Db sqlite parseInt idParam reqBody db =
     ([], Server.mkHttp 400 (Server.ErrorBody (js "Cost is required")), db)).
Proof.
  intros Hb. split.
  - intros Hcase.
    assert (Hr : Server.routeChecks m (field reqBody (js "name"))
                   (field reqBody (js "cost")) =
                 Ok (Some (Server.mkHttp 400
                             (Server.ErrorBody (js "Product name is required"))))).
    { unfold Server.routeChecks, Server.blank.
      destruct Hcase as [Hf|[s [Hn Ht]]].
      - now rewrite Hf.
      - rewrite Hn. cbn [truthy trim_call]. rewrite Ht.
        destruct (JsString.truthy s); reflexivity. }
    unfold Server.postPurchase, Server.putPurchase, member.
    rewrite Hb. cbn [bind]. rewrite Hr. now split.
  - intros [s [Hn Ht]] Hcost.
    assert (Hr : Server.routeChecks m (field reqBody (js "name"))
                   (field reqBody (js "cost")) =
                 Ok (Some (Server.mkHttp 400
                             (Server.ErrorBody (js "Cost is required"))))).
    { unfold Server.routeChecks, Server.blank. rewrite Hn.
      cbn [truthy trim_call].
      assert (Hs : JsString.truthy s = true).
      { destruct s; [now cbn in Ht|reflexivity]. }
      assert (Htt : JsString.truthy (JsString.trim s) = true).
      { destruct (JsString.trim s); [congruence|reflexivity]. }
      rewrite Hs. cbn [negb bind]. rewrite Htt. cbn [negb].
      destruct Hcost as [Hc|Hc]; rewrite Hc; [reflexivity|].
      cbn. reflexivity. }
    unfold Server.postPurchase, Server.putPurchase, member.
    rewrite Hb. cbn [bind]. rewrite Hr. now split.
Qed.

(** X22.  [DELETE /api/purchases/:id] answers 200 with the success
    message exactly when the DELETE changed a row; when it changed none
    the answer is 500 (not 404) with "Purchase with ID <id> not found",
    the id written as the number [parseInt] read. *)
Theorem deletePurchase_answers (idParam : jsstring) (db db' : Db)
    (result : Store.RunInfo) :
  Store.run sqlite Store.DeletePurchase [VNum (parseInt idParam)] db =
    (Ok result, db') ->
  Server.deletePurchase h Db sqlite parseInt idParam db =
  if N.eqb (Store.changes result) 0 then
    ([Server.Failed
        (Error (js "Purchase with ID " ++ NumberToString h (parseInt idParam) ++
                js " not found"))],
     Server.mkHttp 500
       (Server.ErrorBody
          (js "Purchase with ID " ++ NumberToString h (parseInt idParam) ++
           js " not found")),
     db')
  else
    ([], Server.mkHttp 200
           (Server.DeletedBody
              (Store.mkDeleted true (js "Purchase deleted successfully"))),
     db').
Proof.
  intros Hrun. unfold Server.deletePurchase, Store.deletePurchase, Store.notFound.
  rewrite Hrun. destruct (N.eqb (Store.changes result) 0); reflexivity.
Qed.

End RouteProperties.

Lemma data_or_empty (d : ProductData) :
  match data_or_null d with Some d' => d' | None => empty end = d.
Proof. destruct d as [[t|] [p|] [ds|] [i|]]; reflexivity. Qed.

Section LastResort.

Variable h : Host.

(** X23.  When Open Graph and JSON-LD give nothing on a fetched page,
    extraction succeeds exactly when the basic-meta title is not empty
    once trimmed: the title is the [<meta name="title">] content when that
    is not empty, even if it is white space only, and the [<title>] text
    otherwise.  A description alone is not enough. *)
Theorem basic_meta_needs_a_title (url html : jsstring) :
  fetchUrl h url 5000 = Ok html ->
  let doc := cheerio_load h html in
  extractOpenGraph doc = None ->
  extractJsonLd h doc = None ->
  ((exists d, snd (extractProductInfo h url) = Ok d) <->
   (exists s, or_else (trimmed (meta_content (js "title") doc))
                      (trimmed (Some (text (select_tag (js "title") doc)))) =
              Some (VStr s) /\ s <> [])) /\
  ((forall d, snd (extractProductInfo h url) <> Ok d) ->
   snd (extractProductInfo h url) = Throw ExtractionFailed).
Proof.
  intros Hf doc Hog Hj.
  assert (Hch : snd (chooseData h doc) =
                match extractBasicMeta doc with Some d => d | None => empty end).
  { rewrite chooseData_first. unfold strategies. cbn [first_result].
    rewrite Hog, Hj. destruct (extractBasicMeta doc); reflexivity. }
  rewrite (extractProductInfo_fetched h _ _ Hf). fold doc.
  rewrite Hch, extractBasicMeta_fields, data_or_empty, validate_keeps.
  unfold title_truthy, price_truthy. cbn [title price negb andb].
  rewrite andb_true_r.
  set (t := or_else (trimmed (meta_content (js "title") doc))
                    (trimmed (Some (text (select_tag (js "title") doc))))).
  assert (Ht : t = None \/ exists s, t = Some (VStr s)).
  { unfold t, or_else, trimmed.
    destruct (meta_content (js "title") doc) as [c|];
      [destruct (JsString.truthy c); [right; eexists; reflexivity|]|];
      (destruct (JsString.truthy (text (select_tag (js "title") doc)));
       [right; eexists; reflexivity | now left]). }
  destruct Ht as [->|[s ->]].
  - cbn [negb]. split; [|reflexivity]. split.
    + intros [d Hd]. discriminate.
    + intros [s [Hs _]]. discriminate.
  - cbn [truthy]. destruct s as [|c r]; cbn [JsString.truthy negb].
    + split; [|reflexivity]. split.
      * intros [d Hx]. discriminate.
      * intros [s [Hs Hne]]. inversion Hs. congruence.
    + split.
      * split; [|intros _; eexists; reflexivity].
        intros _. exists (c :: r). split; [reflexivity | discriminate].
      * intros Hno. exfalso. exact (Hno _ eq_refl).
Qed.

End LastResort.

(** ** The further properties on pages and requests *)

(** X1, on the page with the price "1 299,00". *)
Lemma og_price_never_negative_witness :
  Number.is_negative (Number.parseFloat (js "1.299")) = false /\
  Number.parseFloat (js "1.299") <> S754_zero true.
Proof.
  exact (og_price_never_negative og_spaced_price
           (mkData (Some (VStr (js "BILLY")))
                   (Some (Number.parseFloat (js "1.299"))) None None)
           (Number.parseFloat (js "1.299")) eq_refl eq_refl).
Defined.

(** X2, on the page with the price ",": the price is set (to NaN). *)
Lemma og_price_set_iff_price_char_witness :
  extractOpenGraph og_comma_price =
    Some (mkData (Some (VStr (js "BILLY"))) (Some Number.NaN) None None) /\
  is_set (Some Number.NaN) = has_price_char (js ",").
Proof.
  split; [reflexivity|].
  exact (og_price_set_iff_price_char og_comma_price
           (mkData (Some (VStr (js "BILLY"))) (Some Number.NaN) None None)
           eq_refl).
Defined.

(** X4, on the page of the basic-meta example. *)
Lemma strategy_strings_are_trimmed_witness :
  JsString.trim (js "A sturdy bookcase.") = js "A sturdy bookcase.".
Proof.
  exact (strategy_strings_are_trimmed titled
           (mkData (Some (VStr shop_title)) None
                   (Some (VStr (js "A sturdy bookcase."))) None)
           (js "A sturdy bookcase.")
           (or_intror eq_refl) (or_intror (or_introl eq_refl))).
Defined.

(** X5, on a page with the price "399". *)
Lemma og_plain_integer_price_witness :
  exists d, extractOpenGraph MoreFixture.og_399 = Some d /\
            price d = Some (Number.of_Z 399).
Proof.
  assert (Hne : js "399" <> []) by discriminate.
  exact (og_plain_integer_price MoreFixture.og_399 (js "399") eq_refl Hne eq_refl).
Defined.

(** X6, on a page whose second block is the BILLY block. *)
Lemma jsonld_first_relevant_wins_witness :
  extractJsonLd (MoreFixture.shop MoreFixture.ld_billy_first)
    MoreFixture.ld_billy_first =
  extractJsonLd (MoreFixture.shop MoreFixture.ld_billy_first)
    [ld_json billy_src].
Proof.
  assert (Hsk : Forall (passed_over (MoreFixture.shop MoreFixture.ld_billy_first))
                  [ld_json breadcrumb_src]).
  { constructor; [|constructor]. exists breadcrumb. repeat split; reflexivity. }
  exact (jsonld_first_relevant_wins
           (MoreFixture.shop MoreFixture.ld_billy_first)
           MoreFixture.ld_billy_first [ld_json breadcrumb_src]
           (ld_json billy_src) [ld_json refund_src] billy
           eq_refl Hsk eq_refl eq_refl).
Defined.

(** X7, on a page that starts with the block [null] and on a page that
    starts with a product whose offers is an empty list. *)
Lemma jsonld_unreadable_block_ends_scan_witness :
  extractJsonLd (MoreFixture.shop MoreFixture.ld_null_then_billy)
    MoreFixture.ld_null_then_billy = None /\
  extractJsonLd (MoreFixture.shop MoreFixture.ld_sold_out)
    MoreFixture.ld_sold_out = None.
Proof.
  split.
  - exact (jsonld_unreadable_block_ends_scan
             (MoreFixture.shop MoreFixture.ld_null_then_billy)
             MoreFixture.ld_null_then_billy [] (ld_json (js "null"))
             [ld_json billy_src] VNull eq_refl (Forall_nil _) eq_refl
             (or_introl eq_refl)).
  - exact (jsonld_unreadable_block_ends_scan
             (MoreFixture.shop MoreFixture.ld_sold_out)
             MoreFixture.ld_sold_out [] (ld_json MoreFixture.sold_out_src)
             [ld_json billy_src] MoreFixture.sold_out eq_refl (Forall_nil _)
             eq_refl (or_intror (conj eq_refl (conj eq_refl eq_refl)))).
Defined.

(** X8, on the BILLY page. *)
Lemma jsonld_only_from_relevant_block_witness :
  exists script json,
    In script (ld_scripts ld_billy) /\
    JSON_parse (shop ld_billy) (inner script) = Ok json /\
    relevant json = true.
Proof.
  exact (jsonld_only_from_relevant_block (shop ld_billy) ld_billy
           (mkData (Some (VStr (js "BILLY"))) (Some (Number.of_Z 399)) None None)
           eq_refl).
Defined.

(** X9, on the page whose price is NaN next to a title. *)
Lemma returned_record_is_usable_witness :
  title_truthy (mkData (Some (VStr (js "BILLY"))) (Some Number.NaN) None None)
  || price_truthy (mkData (Some (VStr (js "BILLY"))) (Some Number.NaN) None None)
  = true.
Proof.
  exact (proj1 (returned_record_is_usable (shop og_comma_price) url
                  (mkData (Some (VStr (js "BILLY"))) (Some Number.NaN) None None)
                  eq_refl)).
Defined.

(** X10, on a request that timed out. *)
Lemma extraction_errors_witness :
  fetchUrl too_slow url 5000 = Throw Timeout \/
  (Timeout = ExtractionFailed /\ exists html, fetchUrl too_slow url 5000 = Ok html).
Proof. exact (extraction_errors too_slow url Timeout eq_refl). Defined.

(** X11, on a server that answers 404. *)
Lemma fetchUrl_errors_witness :
  exn_name (UpstreamError 404) <> js "AbortError".
Proof.
  exact (proj1 (fetchUrl_errors not_found url 5000 (UpstreamError 404) eq_refl)).
Defined.

(** X12, on the page with the price "1 299,00". *)
Lemma extractPriceFromMeta_positive_witness :
  Number.is_positive (Number.of_Z 1299) = true.
Proof.
  exact (extractPriceFromMeta_positive og_spaced_price (Number.of_Z 1299) eq_refl).
Defined.

(** X14, on the id 7, which the database does not hold. *)
Lemma updatePurchase_outcomes_witness :
  Store.updatePurchase StoreFixture.engine StoreFixture.messages
    StoreFixture.Db StoreFixture.sqlite
    (VNum (Number.of_Z 7)) (VStr (js " Sofa ")) VUndefined (VStr (js "5000"))
    (VBool true) VUndefined VUndefined 0%N =
  (Throw (Error (js "Purchase with ID 7 not found")), 0%N).
Proof.
  destruct (updatePurchase_outcomes StoreFixture.engine StoreFixture.messages
              (VNum (Number.of_Z 7)) (VStr (js " Sofa ")) VUndefined
              (VStr (js "5000")) (VBool true) VUndefined VUndefined
              (js "7") eq_refl) as [[e He]|[s [n [Hs [_ [Hn [_ [_ Hrun]]]]]]]].
  - specialize (He bool
                  (Store.mkSqlite bool
                     (fun _ _ b => (Ok (Store.mkRunInfo 0 VUndefined), negb b)))
                  true).
    vm_compute in He. discriminate He.
  - rewrite (Hrun StoreFixture.Db StoreFixture.sqlite 0%N).
    inversion Hs; subst s. vm_compute in Hn. inversion Hn; subst n.
    vm_compute. reflexivity.
Defined.

(** X16, on a request for a page with Open Graph and JSON-LD data. *)
Lemma extractLink_follows_extractor_witness :
  Server.urlToFetch (JsString.trim (js " shop.example/p/1 ")) =
    js "https://shop.example/p/1" /\
  snd (Server.extractLink (shop og_title_and_billy) StoreFixture.messages
         StoreFixture.link_request) =
  Server.mkHttp 200
    (Server.ExtractedBody
       (mkData (Some (VStr (js "BILLY bookcase"))) None None None)).
Proof.
  split; [reflexivity|].
  exact (proj1 (proj2 (extractLink_follows_extractor (shop og_title_and_billy)
                         StoreFixture.messages StoreFixture.link_request
                         (js " shop.example/p/1 ") eq_refl eq_refl
                         ltac:(discriminate)))
           (mkData (Some (VStr (js "BILLY bookcase"))) None None None) eq_refl).
Defined.

(** X18, on a request whose URL is white space. *)
Lemma extractLink_without_url_witness :
  Server.extractLink (shop og_title_and_billy) StoreFixture.messages
    StoreFixture.blank_request =
  ([], Server.mkHttp 400 (Server.ErrorBody (js "URL is required"))).
Proof.
  exact (extractLink_without_url (shop og_title_and_billy) StoreFixture.messages
           StoreFixture.blank_request eq_refl
           (or_intror (ex_intro _ (js "   ") (conj eq_refl eq_refl)))).
Defined.

(** X19, on the request for a sofa. *)
Lemma postPurchase_created_only_valid_witness :
  exists p result,
    Server.PurchaseBody
      (Store.mkPurchase (VNum (Number.of_Z 1)) (js "Sofa") (VStr [])
         (Number.of_Z 5000) (Number.of_Z 1) (VStr []) (VStr [])) =
    Server.PurchaseBody p /\
    @nil Server.ServerLog = [] /\
    Store.run StoreFixture.sqlite Store.InsertPurchase
      [VStr (Store.name p); Store.link p; VNum (Store.cost p);
       VNum (Store.bought p); Store.comments p; Store.room p] 0%N =
      (Ok result, 1%N) /\
    Store.id p = Store.lastInsertRowid result /\
    JsString.trim (Store.name p) = Store.name p /\
    Store.name p <> [] /\
    Number.isNaN (Store.cost p) = false /\
    Number.is_negative (Store.cost p) = false /\
    (Store.bought p = Number.of_Z 1 \/ Store.bought p = Number.of_Z 0).
Proof.
  exact (postPurchase_created_only_valid StoreFixture.engine
           StoreFixture.messages StoreFixture.Db StoreFixture.sqlite
           StoreFixture.sofa 0%N 1%N []
           (Server.mkHttp 201
              (Server.PurchaseBody
                 (Store.mkPurchase (VNum (Number.of_Z 1)) (js "Sofa") (VStr [])
                    (Number.of_Z 5000) (Number.of_Z 1) (VStr []) (VStr []))))
           eq_refl eq_refl).
Defined.

(** X20, on the request for a sofa whose cost is "free". *)
Lemma postPurchase_invalid_cost_witness :
  Server.postPurchase StoreFixture.engine StoreFixture.messages
    StoreFixture.Db StoreFixture.sqlite StoreFixture.free_sofa 0%N =
  ([Server.Failed (Error (js "Cost must be a valid positive number"))],
   Server.mkHttp 500 (Server.ErrorBody (js "Cost must be a valid positive number")),
   0%N).
Proof.
  exact (postPurchase_invalid_cost StoreFixture.engine StoreFixture.messages
           StoreFixture.Db StoreFixture.sqlite StoreFixture.free_sofa 0%N
           (js "Sofa") Number.NaN eq_refl eq_refl ltac:(discriminate)
           eq_refl eq_refl eq_refl eq_refl).
Defined.

(** X21, on the request whose name is white space. *)
Lemma purchase_routes_reject_blank_witness :
  Server.postPurchase StoreFixture.engine StoreFixture.messages
    StoreFixture.Db StoreFixture.sqlite StoreFixture.nameless 0%N =
    ([], Server.mkHttp 400 (Server.ErrorBody (js "Product name is required")), 0%N) /\
  Server.putPurchase StoreFixture.engine StoreFixture.messages
    StoreFixture.Db StoreFixture.sqlite StoreFixture.parseInt (js "2")
    StoreFixture.nameless 0%N =
    ([], Server.mkHttp 400 (Server.ErrorBody (js "Product name is required")), 0%N).
Proof.
  exact (proj1 (purchase_routes_reject_blank StoreFixture.engine
                  StoreFixture.messages StoreFixture.Db StoreFixture.sqlite
                  StoreFixture.parseInt (js "2") StoreFixture.nameless 0%N
                  eq_refl)
           (or_intror (ex_intro _ (js "   ") (conj eq_refl eq_refl)))).
Defined.

(** X22, on the id 7, which the database does not hold. *)
Lemma deletePurchase_answers_witness :
  Server.deletePurchase StoreFixture.engine StoreFixture.Db StoreFixture.sqlite
    StoreFixture.parseInt (js "7") 0%N =
  ([Server.Failed (Error (js "Purchase with ID 7 not found"))],
   Server.mkHttp 500 (Server.ErrorBody (js "Purchase with ID 7 not found")),
   0%N).
Proof.
  exact (deletePurchase_answers StoreFixture.engine StoreFixture.Db
           StoreFixture.sqlite StoreFixture.parseInt (js "7") 0%N 0%N
           (Store.mkRunInfo 0 (VNum (Number.of_Z 0))) eq_refl).
Defined.

(** X23, on a page with a description and nothing else. *)
Lemma basic_meta_needs_a_title_witness :
  extractBasicMeta described =
    Some (mkData None None (Some (VStr (js "hi"))) None) /\
  snd (extractProductInfo (shop described) url) = Throw ExtractionFailed.
Proof.
  split; [reflexivity|].
  apply (proj2 (basic_meta_needs_a_title (shop described) url (js "<html>")
                  eq_refl eq_refl eq_refl)).
  intros d. discriminate.
Defined.
